(** * unlicense.emulation: resolution of wrapped API calls by emulation

    A shallow embedding of [src/unlicense/emulation.py].  The Python code
    drives an external CPU emulator (Unicorn) and a process controller;
    both are kept as interfaces here:

    - the emulator is a type class [Engine] over an abstract engine state,
      each primitive returning either an engine error or its result;
    - the process controller is a record of its attributes and methods;
    - every call that leaves the module (engine primitives, reads of the
      live process, logging) is appended to a trace, so that statements
      of the form "without mapping anything" or "after logging" can be
      written down.

    Python integers are unbounded and are modelled by [Z]. *)

From stdpp Require Import base numbers option list strings gmap.
From Stdlib.Strings Require Import Byte.

Open Scope Z_scope.

(** ** Values of the collaborators *)

(** [process_control.Architecture].  The code names two members and has an
    [else] branch for whatever else a controller reports. *)
Inductive Architecture :=
| X86_32
| X86_64
| ARCH_OTHER (name : string).

(** Register identifiers imported from [unicorn.x86_const]. *)
Inductive x86_reg :=
| UC_X86_REG_ESP | UC_X86_REG_EBP | UC_X86_REG_EIP | UC_X86_REG_EAX
| UC_X86_REG_RSP | UC_X86_REG_RBP | UC_X86_REG_RIP | UC_X86_REG_RAX
| UC_X86_REG_MSR.

Inductive uc_arch := UC_ARCH_X86.
Inductive uc_mode := UC_MODE_32 | UC_MODE_64.

(** Memory protections are bit flags, combined with [|] in the source. *)
Definition UC_PROT_READ : Z := 1.
Definition UC_PROT_WRITE : Z := 2.
Definition UC_PROT_ALL : Z := 7.

(** What a register read yields or a register write takes: an integer, or
    the pair (msr id, value) used for [UC_X86_REG_MSR]. *)
Inductive reg_value :=
| RInt (v : Z)
| RMsr (msr_id value : Z).

(** Error codes carried by [UcError]. *)
Inductive uc_err :=
| UC_ERR_NOMEM
| UC_ERR_ARG
| UC_ERR_MAP
| UC_ERR_READ_UNMAPPED
| UC_ERR_WRITE_UNMAPPED
| UC_ERR_FETCH_UNMAPPED
| UC_ERR_INSN_INVALID
| UC_ERR_EXCEPTION.

(** Kind of access reported to a [UC_HOOK_MEM_UNMAPPED] callback. *)
Inductive mem_access :=
| UC_MEM_READ_UNMAPPED
| UC_MEM_WRITE_UNMAPPED
| UC_MEM_FETCH_UNMAPPED.

Definition unmapped_error (a : mem_access) : uc_err :=
  match a with
  | UC_MEM_READ_UNMAPPED => UC_ERR_READ_UNMAPPED
  | UC_MEM_WRITE_UNMAPPED => UC_ERR_WRITE_UNMAPPED
  | UC_MEM_FETCH_UNMAPPED => UC_ERR_FETCH_UNMAPPED
  end.

(** ** Exceptions and outcomes *)

Inductive exn :=
| UcError (e : uc_err)
| NotImplementedError (about : string)
| ReadProcessMemoryError
| AssertionError
| StructError
| KeyError (key : string)
| ZeroDivisionError
| OtherException (what : string).

(** A call returns, raises, or does not come back (the guest code loops
    and the run loop below runs out of fuel). *)
Inductive outcome (A : Type) :=
| Returns (a : A)
| Raises (e : exn)
| Hangs.
Arguments Returns {A} a.
Arguments Raises {A} e.
Arguments Hangs {A}.

(** ** [struct] and [dump_utils.pointer_size_to_fmt] *)

Inductive struct_fmt :=
| FmtI   (* "<I": little-endian unsigned, 4 bytes *)
| FmtQ.  (* "<Q": little-endian unsigned, 8 bytes *)

Definition fmt_size (f : struct_fmt) : nat :=
  match f with FmtI => 4%nat | FmtQ => 8%nat end.

(** Modelled from the spec: [dump_utils.pointer_size_to_fmt] is not under
    [src/].  The spec speaks of "the single pointer-sized value" and of a
    pointer width of 32 or 64 bits; a width with no such format has no
    encoding and the call raises. *)
Definition pointer_size_to_fmt (pointer_size : Z) : exn + struct_fmt :=
  if decide (pointer_size = 4) then inr FmtI
  else if decide (pointer_size = 8) then inr FmtQ
  else inl (NotImplementedError "Platform not supported").

Definition byte_of_Z (v : Z) : byte :=
  default Byte.x00 (Byte.of_N (Z.to_N (v `mod` 256))).

Definition Z_of_byte (b : byte) : Z := Z.of_N (Byte.to_N b).

Fixpoint le_encode (n : nat) (v : Z) : list byte :=
  match n with
  | O => []
  | S n' => byte_of_Z v :: le_encode n' (v `div` 256)
  end.

Fixpoint le_decode (data : list byte) : Z :=
  match data with
  | [] => 0
  | b :: data' => Z_of_byte b + 256 * le_decode data'
  end.

(** [struct.pack(fmt, v)]: [struct.error] when [v] does not fit. *)
Definition struct_pack (f : struct_fmt) (v : Z) : exn + list byte :=
  if decide (0 ≤ v < 2 ^ (8 * Z.of_nat (fmt_size f)))
  then inr (le_encode (fmt_size f) v)
  else inl StructError.

(** [struct.unpack(fmt, data)[0]]: [struct.error] on a wrong length. *)
Definition struct_unpack (f : struct_fmt) (data : list byte) : exn + Z :=
  if decide (length data = fmt_size f)
  then inr (le_decode data)
  else inl StructError.

(** ** The process controller *)

Record ExportInfo := { name : string }.

Record ProcessController := {
  architecture : Architecture;
  pointer_size : Z;
  page_size : Z;
  read_process_memory : Z → Z → exn + list byte;
  enumerate_exported_functions : gmap Z ExportInfo;
}.

(** ** The trace of outside calls *)

Inductive log_level := DEBUG | ERROR.

(** One constructor per format string of the module. *)
Inductive log_msg :=
| MsgError (e : exn)                     (* "ERROR: %s" *)
| MsgPC (v : Z)                          (* "PC=%s" *)
| MsgSP (v : Z)                          (* "SP=%s" *)
| MsgBP (v : Z)                          (* "BP=%s" *)
| MsgUnmapped (address : Z)              (* "Unmapped memory at %s" *)
| MsgMapped (n : Z) (address : Z)        (* "Mapped %d bytes at %s" *)
| MsgReached (api_name : string)         (* "Reached API '%s'" *)
| MsgNoReturn                            (* "Reached noreturn API, ..." *)
| MsgBogus.                              (* "Reached bogus API call, ..." *)

Inductive hook_type := UC_HOOK_MEM_UNMAPPED | UC_HOOK_BLOCK.

Inductive event :=
| ELog (lvl : log_level) (m : log_msg)
| EUc (a : uc_arch) (m : uc_mode)
| EMemMap (address size perms : Z)
| EMemWrite (address : Z) (data : list byte)
| EMemRead (address size : Z)
| ERegRead (r : x86_reg)
| ERegWrite (r : x86_reg) (v : reg_value)
| EHookAdd (h : hook_type)
| EEmuStart (begin until : Z)
| EEmuStop
| EReadProcessMemory (address size : Z).

(** Callbacks installed by [uc.hook_add], with their [user_data]. *)
Inductive hook :=
| HookMemUnmapped (process_controller : ProcessController)
| HookBlock (process_controller : ProcessController) (stop_on_ret_addr : Z).

(** ** The emulation engine *)

(** What the engine's execution loop meets next while it runs guest code. *)
Inductive cpu_event :=
| EvBlock (address size : Z)
    (* a basic block is about to execute *)
| EvUnmapped (access : mem_access) (address size value : Z)
    (* the guest touched memory that is not mapped *)
| EvFault (e : uc_err)
    (* any other CPU fault *)
| EvUntil.
    (* the program counter reached the [until] address *)

Class Engine (U : Type) := {
  e_open : uc_arch → uc_mode → uc_err + U;
  e_mem_map : U → Z → Z → Z → uc_err + U;
  e_mem_write : U → Z → list byte → uc_err + U;
  e_mem_read : U → Z → Z → uc_err + list byte;
  e_reg_read : U → x86_reg → uc_err + reg_value;
  e_reg_write : U → x86_reg → reg_value → uc_err + U;
  (* [emu_start(begin, until)]: load the program counter and the bound *)
  e_begin : U → Z → Z → U;
  (* run guest instructions up to the next event *)
  e_run : U → cpu_event * U;
}.

(** ** The session monad: state of one resolution call, with exceptions *)

Section Emulation.
Context {U : Type} `{!Engine U}.

(** The emulator object [uc] as the Python code sees it: the engine state,
    the callbacks installed on it, the stop request of [emu_stop], and the
    trace of outside calls made so far (oldest first). *)
Record World := {
  w_uc : U;
  w_hooks : list hook;
  w_stop : bool;
  w_trace : list event;
}.

Definition M (A : Type) : Type := World → outcome A * World.

#[global] Instance M_ret : MRet M := λ A a w, (Returns a, w).

#[global] Instance M_bind : MBind M := λ A B k m w,
  match m w with
  | (Returns a, w') => k a w'
  | (Raises e, w') => (Raises e, w')
  | (Hangs, w') => (Hangs, w')
  end.

Definition raise {A} (e : exn) : M A := λ w, (Raises e, w).

(** A pure computation that may raise. *)
Definition lift {A} (r : exn + A) : M A :=
  match r with
  | inl e => raise e
  | inr a => mret a
  end.

(** [try: body except ...]: [handler e] is the clause that catches [e],
    if there is one.  Not coming back is not an exception. *)
Definition try_except {A} (body : M A) (handler : exn → option (M A)) : M A :=
  λ w,
    match body w with
    | (Raises e, w') =>
        match handler e with
        | Some h => h w'
        | None => (Raises e, w')
        end
    | r => r
    end.

Definition emit (ev : event) : M unit := λ w,
  (Returns tt,
   {| w_uc := w_uc w; w_hooks := w_hooks w; w_stop := w_stop w;
      w_trace := w_trace w ++ [ev] |}).

Definition set_uc (u : U) (w : World) : World :=
  {| w_uc := u; w_hooks := w_hooks w; w_stop := w_stop w;
     w_trace := w_trace w |}.

(** An engine primitive that changes the engine, or fails with [UcError]. *)
Definition engine_update (r : U → uc_err + U) : M unit := λ w,
  match r (w_uc w) with
  | inl e => (Raises (UcError e), w)
  | inr u => (Returns tt, set_uc u w)
  end.

(** An engine primitive that reads from the engine, or fails. *)
Definition engine_query {A} (r : U → uc_err + A) : M A := λ w,
  match r (w_uc w) with
  | inl e => (Raises (UcError e), w)
  | inr a => (Returns a, w)
  end.

Definition LOG (lvl : log_level) (m : log_msg) : M unit := emit (ELog lvl m).

Definition uc_mem_map (address size perms : Z) : M unit :=
  emit (EMemMap address size perms);;
  engine_update (λ u, e_mem_map u address size perms).

Definition uc_mem_write (address : Z) (data : list byte) : M unit :=
  emit (EMemWrite address data);;
  engine_update (λ u, e_mem_write u address data).

Definition uc_mem_read (address size : Z) : M (list byte) :=
  emit (EMemRead address size);;
  engine_query (λ u, e_mem_read u address size).

Definition uc_reg_read (r : x86_reg) : M reg_value :=
  emit (ERegRead r);;
  engine_query (λ u, e_reg_read u r).

Definition uc_reg_write (r : x86_reg) (v : reg_value) : M unit :=
  emit (ERegWrite r v);;
  engine_update (λ u, e_reg_write u r v).

Definition request_stop (b : bool) : M unit := λ w,
  (Returns tt,
   {| w_uc := w_uc w; w_hooks := w_hooks w; w_stop := b;
      w_trace := w_trace w |}).

Definition uc_emu_stop : M unit :=
  emit EEmuStop;;
  request_stop true.

Definition hook_type_of (h : hook) : hook_type :=
  match h with
  | HookMemUnmapped _ => UC_HOOK_MEM_UNMAPPED
  | HookBlock _ _ => UC_HOOK_BLOCK
  end.

Definition install (h : hook) : M unit := λ w,
  (Returns tt,
   {| w_uc := w_uc w; w_hooks := w_hooks w ++ [h]; w_stop := w_stop w;
      w_trace := w_trace w |}).

Definition uc_hook_add (h : hook) : M unit :=
  emit (EHookAdd (hook_type_of h));;
  install h.

(** [v = uc.reg_read(r); assert isinstance(v, int)] *)
Definition reg_read_int (r : x86_reg) : M Z :=
  v ← uc_reg_read r;
  match v with
  | RInt z => mret z
  | RMsr _ _ => raise AssertionError
  end.

(** [process_controller.read_process_memory(address, size)] *)
Definition pc_read_process_memory (process_controller : ProcessController)
    (address size : Z) : M (list byte) :=
  emit (EReadProcessMemory address size);;
  lift (read_process_memory process_controller address size).

(** ** The policy tables *)

Definition STACK_MAGIC_RET_ADDR : Z := 0xdeadbeef.

Definition NO_RETURN_APIS : list string :=
  ["ExitProcess"; "FatalExit"; "ExitThread"]%string.

Definition _is_no_return_api (api_name : string) : bool :=
  bool_decide (api_name ∈ NO_RETURN_APIS).

Definition BOGUS_APIS : list string := ["Sleep"]%string.

Definition _is_bogus_api (api_name : string) : bool :=
  bool_decide (api_name ∈ BOGUS_APIS).

Definition BOGUS_API_MAP : gmap string (Z * Z) :=
  {[ "Sleep"%string := (0, 1) ]}.

(** [BOGUS_API_MAP[api_name]]: (result, number of arguments). *)
Definition _simulate_bogus_api (api_name : string) : exn + Z * Z :=
  match BOGUS_API_MAP !! api_name with
  | Some r => inr r
  | None => inl (KeyError api_name)
  end.

(** ** The demand-paging fault handler *)

Definition _unicorn_hook_unmapped (_access : mem_access)
    (address _size _value : Z) (process_controller : ProcessController)
    : M bool :=
  LOG DEBUG (MsgUnmapped address);;
  if decide (address = 0) then mret false
  else
    let page_size := page_size process_controller in
    let aligned_addr := address - Z.land address (page_size - 1) in
    try_except
      (in_process_data ←
         pc_read_process_memory process_controller aligned_addr page_size;
       uc_mem_map aligned_addr (Z.of_nat (length in_process_data))
         UC_PROT_ALL;;
       uc_mem_write aligned_addr in_process_data;;
       LOG DEBUG (MsgMapped (Z.of_nat (length in_process_data)) aligned_addr);;
       mret true)
      (λ e,
         match e with
         | UcError _ => Some (LOG ERROR (MsgError e);; mret false)
         | ReadProcessMemoryError => Some (LOG DEBUG (MsgError e);; mret false)
         | _ => Some (LOG ERROR (MsgError e);; mret false)
         end).

(** ** The block hook *)

(** Lines 206-214: pop the return address and the arguments that the
    calling convention passes on the stack. *)
Definition fix_stack (arch : Architecture) (sp_register : x86_reg)
    (sp ptr_size arg_count : Z) : M unit :=
  match arch with
  | X86_32 =>
      uc_reg_write sp_register (RInt (sp + ptr_size * (1 + arg_count)))
  | X86_64 =>
      let stack_arg_count := Z.max 0 (arg_count - 4) in
      uc_reg_write sp_register (RInt (sp + ptr_size * (1 + stack_arg_count)))
  | ARCH_OTHER _ => mret tt
  end.

Definition _unicorn_hook_block (address _size : Z)
    (user_data : ProcessController * Z) : M unit :=
  let '(process_controller, stop_on_ret_addr) := user_data in
  let ptr_size := pointer_size process_controller in
  let arch := architecture process_controller in
  '(pc_register, sp_register, result_register) ←
    match arch with
    | X86_32 => mret (UC_X86_REG_EIP, UC_X86_REG_ESP, UC_X86_REG_EAX)
    | X86_64 => mret (UC_X86_REG_RIP, UC_X86_REG_RSP, UC_X86_REG_RAX)
    | ARCH_OTHER a => raise (NotImplementedError a)
    end;
  let exports_dict := enumerate_exported_functions process_controller in
  match exports_dict !! address with
  | None => mret tt
  | Some info =>
      (* Reached an export or returned to the call site *)
      sp ← reg_read_int sp_register;
      ret_addr_data ← uc_mem_read sp ptr_size;
      fmt ← lift (pointer_size_to_fmt ptr_size);
      ret_addr ← lift (struct_unpack fmt ret_addr_data);
      let api_name := name info in
      LOG DEBUG (MsgReached api_name);;
      if bool_decide (ret_addr = stop_on_ret_addr)
         || bool_decide (ret_addr = stop_on_ret_addr + 1)
         || bool_decide (ret_addr = STACK_MAGIC_RET_ADDR)
      then
        (* Most wrappers should end up here directly *)
        uc_reg_write result_register (RInt address);;
        uc_emu_stop
      else if _is_no_return_api api_name then
        LOG DEBUG MsgNoReturn;;
        uc_reg_write result_register (RInt address);;
        uc_emu_stop
      else if _is_bogus_api api_name then
        LOG DEBUG MsgBogus;;
        (* "Simulate" bogus call *)
        '(result, arg_count) ← lift (_simulate_bogus_api api_name);
        uc_reg_write result_register (RInt result);;
        fix_stack arch sp_register sp ptr_size arg_count;;
        (* Set next address *)
        uc_reg_write pc_register (RInt ret_addr)
      else mret tt
  end.

(** ** The engine's execution loop

    The engine is an external library, so [emu_start] has no source to
    translate.  Its loop is written after the interface the spec gives in
    section 6: [start(entry, bound)] "runs until a hook stops it, a fault
    occurs and is not handled, or the bound is reached"; the fault hook
    "returns a boolean indicating whether the fault was resolved ... or
    should be treated as fatal"; the block hook is invoked with the
    address of the about-to-execute basic block.  What the guest code does
    between two callbacks is the engine's [e_run].  An exception raised
    inside a callback is taken to come out of [emu_start]; no statement
    below depends on that choice. *)

Fixpoint run_block_hooks (hs : list hook) (address size : Z) : M unit :=
  match hs with
  | [] => mret tt
  | HookBlock process_controller stop_on_ret_addr :: hs' =>
      _unicorn_hook_block address size (process_controller, stop_on_ret_addr);;
      run_block_hooks hs' address size
  | HookMemUnmapped _ :: hs' => run_block_hooks hs' address size
  end.

Fixpoint run_unmapped_hooks (hs : list hook) (access : mem_access)
    (address size value : Z) : M bool :=
  match hs with
  | [] => mret false
  | HookMemUnmapped process_controller :: hs' =>
      _unicorn_hook_unmapped access address size value process_controller
      ≫= λ handled : bool,
        if handled then mret true
        else run_unmapped_hooks hs' access address size value
  | HookBlock _ _ :: hs' => run_unmapped_hooks hs' access address size value
  end.

Definition hang {A} : M A := λ w, (Hangs, w).

(** After the block callbacks: return if one of them called [emu_stop]. *)
Definition unless_stopped (continue : M unit) : M unit := λ w,
  if w_stop w then (Returns tt, w) else continue w.

(** What the engine does with one event; [continue] is the rest of the
    run. *)
Definition on_event (ev : cpu_event) (continue : M unit) : M unit :=
  match ev with
  | EvBlock address size => λ w,
      (run_block_hooks (w_hooks w) address size;;
       unless_stopped continue) w
  | EvUnmapped access address size value => λ w,
      (run_unmapped_hooks (w_hooks w) access address size value
       ≫= λ handled : bool,
         if handled then continue
         else raise (UcError (unmapped_error access))) w
  | EvFault e => raise (UcError e)
  | EvUntil => mret tt
  end.

Fixpoint emu_loop (fuel : nat) : M unit :=
  match fuel with
  | O => hang
  | S fuel' => λ w,
      let '(ev, u) := e_run (w_uc w) in
      on_event ev (emu_loop fuel') (set_uc u w)
  end.

Definition uc_emu_start (fuel : nat) (begin until : Z) : M unit :=
  emit (EEmuStart begin until);;
  engine_update (λ u, inr (e_begin u begin until));;
  request_stop false;;
  emu_loop fuel.

(** ** Context construction and the entry point *)

(** [struct.pack(pointer_size_to_fmt(size), v)] *)
Definition pack_pointer (size v : Z) : M (list byte) :=
  fmt ← lift (pointer_size_to_fmt size);
  lift (struct_pack fmt v).

(** Python's [a % b] on integers. *)
Definition py_mod (a b : Z) : exn + Z :=
  if decide (b = 0) then inl ZeroDivisionError else inr (a `mod` b).

Definition _setup_teb_x86 (process_info : ProcessController) : M unit :=
  let MSG_IA32_FS_BASE := 0xC0000100 in
  let teb_addr := 0xff100000 in
  let peb_addr := 0xff200000 in
  (* Map tables *)
  uc_mem_map teb_addr (page_size process_info)
    (Z.lor UC_PROT_READ UC_PROT_WRITE);;
  uc_mem_map peb_addr (page_size process_info)
    (Z.lor UC_PROT_READ UC_PROT_WRITE);;
  teb_self ← pack_pointer 4 teb_addr;
  uc_mem_write (teb_addr + 0x18) teb_self;;
  teb_peb ← pack_pointer 4 peb_addr;
  uc_mem_write (teb_addr + 0x30) teb_peb;;
  uc_reg_write UC_X86_REG_MSR (RMsr MSG_IA32_FS_BASE teb_addr).

Definition _setup_teb_x64 (process_info : ProcessController) : M unit :=
  let MSG_IA32_GS_BASE := 0xC0000101 in
  let teb_addr := 0xff10000000000000 in
  let peb_addr := 0xff20000000000000 in
  (* Map tables *)
  uc_mem_map teb_addr (page_size process_info)
    (Z.lor UC_PROT_READ UC_PROT_WRITE);;
  uc_mem_map peb_addr (page_size process_info)
    (Z.lor UC_PROT_READ UC_PROT_WRITE);;
  teb_self ← pack_pointer 8 teb_addr;
  uc_mem_write (teb_addr + 0x30) teb_self;;
  teb_peb ← pack_pointer 8 peb_addr;
  uc_mem_write (teb_addr + 0x60) teb_peb;;
  uc_reg_write UC_X86_REG_MSR (RMsr MSG_IA32_GS_BASE teb_addr).

(** The locals chosen by the [if arch == ...] chain of lines 24-44. *)
Record Profile := {
  uc_arch_of : uc_arch;
  uc_mode_of : uc_mode;
  pc_register : x86_reg;
  sp_register : x86_reg;
  bp_register : x86_reg;
  result_register : x86_reg;
  stack_addr : Z;
  setup_teb : ProcessController → M unit;
}.

Definition profile_x86_32 : Profile :=
  {| uc_arch_of := UC_ARCH_X86; uc_mode_of := UC_MODE_32;
     pc_register := UC_X86_REG_EIP; sp_register := UC_X86_REG_ESP;
     bp_register := UC_X86_REG_EBP; result_register := UC_X86_REG_EAX;
     stack_addr := 0xff000000; setup_teb := _setup_teb_x86 |}.

Definition profile_x86_64 : Profile :=
  {| uc_arch_of := UC_ARCH_X86; uc_mode_of := UC_MODE_64;
     pc_register := UC_X86_REG_RIP; sp_register := UC_X86_REG_RSP;
     bp_register := UC_X86_REG_RBP; result_register := UC_X86_REG_RAX;
     stack_addr := 0xff00000000000000; setup_teb := _setup_teb_x64 |}.

Definition select_profile (arch : Architecture) : exn + Profile :=
  match arch with
  | X86_32 => inr profile_x86_32
  | X86_64 => inr profile_x86_64
  | ARCH_OTHER a => inl (NotImplementedError a)
  end.

(** Lines 68-71. *)
Definition stop_on_ret_addr (expected_ret_addr : option Z) : Z :=
  match expected_ret_addr with
  | None => STACK_MAGIC_RET_ADDR
  | Some r => r
  end.

(** Lines 48-65: the synthetic pages, the stack and the registers. *)
Definition map_context (p : Profile) (process_controller : ProcessController)
    : M unit :=
  (* Map fake return address's page in case wrappers try to access it *)
  r ← lift (py_mod STACK_MAGIC_RET_ADDR (page_size process_controller));
  let aligned_addr := STACK_MAGIC_RET_ADDR - r in
  uc_mem_map aligned_addr (page_size process_controller) UC_PROT_ALL;;
  (* Setup a stack *)
  let stack_size := 3 * page_size process_controller in
  let stack_start :=
    stack_addr p + stack_size - page_size process_controller in
  uc_mem_map (stack_addr p) stack_size (Z.lor UC_PROT_READ UC_PROT_WRITE);;
  magic ← pack_pointer (pointer_size process_controller) STACK_MAGIC_RET_ADDR;
  uc_mem_write stack_start magic;;
  uc_reg_write (sp_register p) (RInt stack_start);;
  uc_reg_write (bp_register p) (RInt stack_start);;
  (* Setup FS/GSBASE *)
  setup_teb p process_controller.

(** Lines 67-77. *)
Definition setup_hooks (process_controller : ProcessController)
    (expected_ret_addr : option Z) : M unit :=
  uc_hook_add (HookMemUnmapped process_controller);;
  uc_hook_add
    (HookBlock process_controller (stop_on_ret_addr expected_ret_addr)).

(** Lines 48-77: everything the [try] block does before [emu_start]. *)
Definition build_context (p : Profile) (process_controller : ProcessController)
    (expected_ret_addr : option Z) : M unit :=
  map_context p process_controller;;
  setup_hooks process_controller expected_ret_addr.

(** Lines 47-85: the body of the [try]. *)
Definition resolve_body (fuel : nat) (p : Profile) (wrapper_start_addr : Z)
    (process_controller : ProcessController) (expected_ret_addr : option Z)
    : M (option Z) :=
  build_context p process_controller expected_ret_addr;;
  uc_emu_start fuel wrapper_start_addr (wrapper_start_addr + 1024);;
  (* Read and return PC *)
  pc ← reg_read_int (result_register p);
  mret (Some pc).

(** Lines 86-97: the [except UcError] clause. *)
Definition resolve_on_error (p : Profile) (e : exn) : option (M (option Z)) :=
  match e with
  | UcError _ =>
      Some (LOG DEBUG (MsgError e);;
            pc ← reg_read_int (pc_register p);
            sp ← reg_read_int (sp_register p);
            bp ← reg_read_int (bp_register p);
            LOG DEBUG (MsgPC pc);;
            LOG DEBUG (MsgSP sp);;
            LOG DEBUG (MsgBP bp);;
            mret None)
  | _ => None
  end.

Definition fresh_world (u : U) (tr : list event) : World :=
  {| w_uc := u; w_hooks := []; w_stop := false; w_trace := tr |}.

(** The entry point: what the call does (a returned address, [None],
    an exception, or no return) and the outside calls it made. *)
Definition resolve_wrapped_api (fuel : nat) (wrapper_start_addr : Z)
    (process_controller : ProcessController) (expected_ret_addr : option Z)
    : outcome (option Z) * list event :=
  match select_profile (architecture process_controller) with
  | inl e => (Raises e, [])
  | inr p =>
      let opened := [EUc (uc_arch_of p) (uc_mode_of p)] in
      match e_open (uc_arch_of p) (uc_mode_of p) with
      | inl e => (Raises (UcError e), opened)
      | inr u =>
          let '(r, w) :=
            try_except
              (resolve_body fuel p wrapper_start_addr process_controller
                 expected_ret_addr)
              (resolve_on_error p)
              (fresh_world u opened) in
          (r, w_trace w)
      end
  end.

(** ** Vocabulary of the statements *)

(** The world [w] once the engine is in state [u], the stop request is
    [stop] and the calls [evs] have been made. *)
Definition after (w : World) (u : U) (stop : bool) (evs : list event)
    : World :=
  {| w_uc := u; w_hooks := w_hooks w; w_stop := stop;
     w_trace := w_trace w ++ evs |}.

(** In engine state [u] the stack pointer is [sp], the [pointer_size]
    bytes there are [data], and they decode to [ret]: what lines 177-181
    of the block hook read. *)
Definition stack_top (process_controller : ProcessController)
    (sp_register : x86_reg) (u : U) (sp : Z) (data : list byte) (ret : Z)
    : Prop :=
  e_reg_read u sp_register = inr (RInt sp) ∧
  e_mem_read u sp (pointer_size process_controller) = inr data ∧
  ∃ fmt, pointer_size_to_fmt (pointer_size process_controller) = inr fmt ∧
         struct_unpack fmt data = inr ret.

(** A computation that leaves the installed hooks and the stop request as
    they were. *)
Definition keeps_session {A} (m : M A) : Prop :=
  ∀ w r w', m w = (r, w') → w_hooks w' = w_hooks w ∧ w_stop w' = w_stop w.

(** The outside calls of the [except UcError] clause of the entry point,
    lines 87-96. *)
Definition diagnostics (p : Profile) (err : uc_err) (vpc vsp vbp : Z)
    : list event :=
  [ELog DEBUG (MsgError (UcError err));
   ERegRead (pc_register p); ERegRead (sp_register p);
   ERegRead (bp_register p);
   ELog DEBUG (MsgPC vpc); ELog DEBUG (MsgSP vsp); ELog DEBUG (MsgBP vbp)].

(** The level at which the fault handler logs the exception it swallows. *)
Definition swallowed_at (e : exn) : log_level :=
  match e with
  | ReadProcessMemoryError => DEBUG
  | _ => ERROR
  end.

(** The page the fault handler mirrors for a faulting [address]. *)
Definition fault_page (process_controller : ProcessController) (address : Z)
    : Z :=
  address - Z.land address (page_size process_controller - 1).


(** A computation that either returns or raises an engine error: it never
    raises anything else and always comes back. *)
Definition engine_errors_only {A} (m : M A) : Prop :=
  ∀ w r w', m w = (r, w') →
    (∃ a, r = Returns a) ∨ (∃ err, r = Raises (UcError err)).

(** A computation that only adds outside calls to the trace. *)
Definition appends_to_trace {A} (m : M A) : Prop :=
  ∀ w r w', m w = (r, w') → ∃ evs, w_trace w' = w_trace w ++ evs.

(** One iteration of the execution loop that does not end the run, from
    engine state [u] to engine state [u']: a block that is not an export,
    a fault the handler resolves, an export that meets none of the hook's
    three tests, or a bogus call that the hook bypasses.  [R] is the stop
    address given to the block hook. *)
Inductive passes (process_controller : ProcessController) (p : Profile)
    (R : Z) : U → U → Prop :=
| passes_block u a sz u1 :
    e_run u = (EvBlock a sz, u1) →
    enumerate_exported_functions process_controller !! a = None →
    passes process_controller p R u u1
| passes_fault u access a sz v u1 data u2 u3 :
    e_run u = (EvUnmapped access a sz v, u1) →
    a ≠ 0 →
    read_process_memory process_controller
      (fault_page process_controller a) (page_size process_controller)
      = inr data →
    e_mem_map u1 (fault_page process_controller a)
      (Z.of_nat (length data)) UC_PROT_ALL = inr u2 →
    e_mem_write u2 (fault_page process_controller a) data = inr u3 →
    passes process_controller p R u u3
| passes_unexpected u a sz u1 info sp data ret :
    e_run u = (EvBlock a sz, u1) →
    enumerate_exported_functions process_controller !! a = Some info →
    stack_top process_controller (sp_register p) u1 sp data ret →
    ret ≠ R → ret ≠ R + 1 → ret ≠ STACK_MAGIC_RET_ADDR →
    _is_no_return_api (name info) = false →
    _is_bogus_api (name info) = false →
    passes process_controller p R u u1
| passes_bogus u a sz u1 info sp data ret k u2 u3 u4 :
    e_run u = (EvBlock a sz, u1) →
    enumerate_exported_functions process_controller !! a = Some info →
    name info = "Sleep"%string →
    stack_top process_controller (sp_register p) u1 sp data ret →
    ret ≠ R → ret ≠ R + 1 → ret ≠ STACK_MAGIC_RET_ADDR →
    architecture process_controller = X86_32 ∧ k = 2
    ∨ architecture process_controller = X86_64 ∧ k = 1 →
    e_reg_write u1 (result_register p) (RInt 0) = inr u2 →
    e_reg_write u2 (sp_register p)
      (RInt (sp + pointer_size process_controller * k)) = inr u3 →
    e_reg_write u3 (pc_register p) (RInt ret) = inr u4 →
    passes process_controller p R u u4.

End Emulation.

Arguments World : clear implicits.
Arguments M : clear implicits.
Arguments Profile : clear implicits.

(** ** A reference engine

    A small executable instance of [Engine], used to run the embedding on
    concrete inputs: page-granular mapping that refuses bad arguments,
    overlaps and requests beyond the host's memory budget; byte-addressed
    memory; a register file; and the guest code given as the script of
    what it does next. *)

Module RefUc.

#[global] Instance x86_reg_eq_dec : EqDecision x86_reg.
Proof. solve_decision. Defined.

Inductive guest_step :=
| GBlock (address size : Z)           (* enter a basic block *)
| GPush (v : Z)                       (* push a pointer-sized value *)
| GSetReg (r : x86_reg) (v : Z)       (* load a register *)
| GAccess (access : mem_access) (address size value : Z)  (* touch memory *)
| GFault (e : uc_err).                (* e.g. an invalid instruction *)

Record state := {
  mode : uc_mode;
  granule : Z;                        (* mapping granularity, in bytes *)
  regs : x86_reg → reg_value;
  regions : list (Z * Z);             (* start, size *)
  mem : gmap Z byte;
  budget : Z;                         (* bytes the host can still map *)
  script : list guest_step;
}.

Definition overlaps (a sz : Z) (r : Z * Z) : bool :=
  bool_decide (a < r.1 + r.2 ∧ r.1 < a + sz).

Definition inside (a sz : Z) (r : Z * Z) : bool :=
  bool_decide (r.1 ≤ a ∧ a + sz ≤ r.1 + r.2).

Definition covered (u : state) (a sz : Z) : bool :=
  existsb (inside a sz) (regions u).

Definition mem_map (u : state) (a sz perms : Z) : uc_err + state :=
  if bool_decide (sz ≤ 0 ∨ a < 0 ∨ a `mod` granule u ≠ 0
                  ∨ sz `mod` granule u ≠ 0
                  ∨ Z.land perms (Z.lnot UC_PROT_ALL) ≠ 0)
  then inl UC_ERR_ARG
  else if existsb (overlaps a sz) (regions u) then inl UC_ERR_MAP
  else if bool_decide (budget u < sz) then inl UC_ERR_NOMEM
  else inr {| mode := mode u; granule := granule u; regs := regs u;
              regions := (a, sz) :: regions u; mem := mem u;
              budget := budget u - sz; script := script u |}.

Fixpoint store (m : gmap Z byte) (a : Z) (data : list byte) : gmap Z byte :=
  match data with
  | [] => m
  | b :: data' => store (<[a := b]> m) (a + 1) data'
  end.

Definition mem_write (u : state) (a : Z) (data : list byte)
    : uc_err + state :=
  if covered u a (Z.of_nat (length data))
  then inr {| mode := mode u; granule := granule u; regs := regs u; regions := regions u;
              mem := store (mem u) a data; budget := budget u;
              script := script u |}
  else inl UC_ERR_WRITE_UNMAPPED.

Definition mem_read (u : state) (a sz : Z) : uc_err + list byte :=
  if bool_decide (sz < 0) then inl UC_ERR_ARG
  else if covered u a sz
  then inr ((λ i, default Byte.x00 (mem u !! (a + i))) <$> seqZ 0 sz)
  else inl UC_ERR_READ_UNMAPPED.

Definition set_reg (u : state) (r : x86_reg) (v : reg_value) : state :=
  {| mode := mode u; granule := granule u;
     regs := λ r', if decide (r' = r) then v else regs u r';
     regions := regions u; mem := mem u; budget := budget u;
     script := script u |}.

Definition pc_of (m : uc_mode) : x86_reg :=
  match m with UC_MODE_32 => UC_X86_REG_EIP | UC_MODE_64 => UC_X86_REG_RIP end.

Definition sp_of (m : uc_mode) : x86_reg :=
  match m with UC_MODE_32 => UC_X86_REG_ESP | UC_MODE_64 => UC_X86_REG_RSP end.

Definition width_of (m : uc_mode) : nat :=
  match m with UC_MODE_32 => 4%nat | UC_MODE_64 => 8%nat end.

Definition with_script (u : state) (s : list guest_step) : state :=
  {| mode := mode u; granule := granule u; regs := regs u; regions := regions u; mem := mem u;
     budget := budget u; script := s |}.

(** A push that lands outside mapped memory faults like any other
    access. *)
Definition push (u : state) (v : Z) : uc_err + state :=
  match regs u (sp_of (mode u)) with
  | RInt sp =>
      let sp' := sp - Z.of_nat (width_of (mode u)) in
      match mem_write u sp' (le_encode (width_of (mode u)) v) with
      | inl e => inl e
      | inr u' => inr (set_reg u' (sp_of (mode u)) (RInt sp'))
      end
  | RMsr _ _ => inl UC_ERR_EXCEPTION
  end.

Fixpoint play (s : list guest_step) (u : state) : cpu_event * state :=
  match s with
  | [] => (EvUntil, with_script u [])
  | GBlock address size :: s' => (EvBlock address size, with_script u s')
  | GPush v :: s' =>
      match push u v with
      | inl e => (EvFault e, with_script u s')
      | inr u' => play s' u'
      end
  | GSetReg r v :: s' => play s' (set_reg u r (RInt v))
  | GAccess access address size value :: s' =>
      if covered u address size then play s' u
      else (EvUnmapped access address size value, with_script u s')
  | GFault e :: s' => (EvFault e, with_script u s')
  end.

(** A fresh engine: nothing mapped, registers at zero; [host_budget],
    [page] and [guest] describe the host, its mapping granularity and the
    code to be emulated. *)
Definition fresh (host_budget page : Z) (guest : list guest_step)
    (m : uc_mode) : state :=
  {| mode := m; granule := page; regs := λ _, RInt 0; regions := [];
     mem := ∅; budget := host_budget; script := guest |}.

Definition open (host_budget page : Z) (guest : list guest_step)
    (a : uc_arch) (m : uc_mode) : uc_err + state :=
  inr (fresh host_budget page guest m).

Definition engine (host_budget page : Z) (guest : list guest_step)
    : Engine state :=
  {| e_open := open host_budget page guest;
     e_mem_map := mem_map;
     e_mem_write := mem_write;
     e_mem_read := mem_read;
     e_reg_read := λ u r, inr (regs u r);
     e_reg_write := λ u r v, inr (set_reg u r v);
     e_begin := λ u begin until, set_reg u (pc_of (mode u)) (RInt begin);
     e_run := λ u, play (script u) u |}.

End RefUc.

(** ** Sample inputs *)

Module Sample.

Definition exports : gmap Z ExportInfo :=
  {[ 0x77001000 := {| name := "CreateFileA" |};
     0x77002000 := {| name := "ExitProcess" |};
     0x77003000 := {| name := "Sleep" |} ]}.

(** The live process: one readable megabyte of [nop]s at 0x400000. *)
Definition live (address size : Z) : exn + list byte :=
  if bool_decide (0x400000 ≤ address ∧ address + size ≤ 0x500000)
  then inr (replicate (Z.to_nat size) Byte.x90)
  else inl ReadProcessMemoryError.

Definition controller (arch : Architecture) (ptr : Z) : ProcessController :=
  {| architecture := arch; pointer_size := ptr; page_size := 0x1000;
     read_process_memory := live;
     enumerate_exported_functions := exports |}.

Definition pc32 : ProcessController := controller X86_32 4.
Definition pc64 : ProcessController := controller X86_64 8.
Definition pc_arm : ProcessController := controller (ARCH_OTHER "ARM64") 8.

(** A controller reporting 16-byte pages, to keep mirrored pages short. *)
Definition pc_tiny : ProcessController :=
  {| architecture := X86_32; pointer_size := 4; page_size := 0x10;
     read_process_memory := live;
     enumerate_exported_functions := exports |}.

Definition wrapper : Z := 0x401000.

(** A host with room for a megabyte of guest mappings, and one that has
    none left. *)
Definition roomy (guest : list RefUc.guest_step) : Engine RefUc.state :=
  RefUc.engine 0x100000 0x1000 guest.
Definition exhausted (guest : list RefUc.guest_step) : Engine RefUc.state :=
  RefUc.engine 0 0x1000 guest.
Definition roomy_idle : Engine RefUc.state := roomy [].

(** [resolve_wrapped_api] at the sample wrapper on a given engine. *)
Definition run (E : Engine RefUc.state) (fuel : nat)
    (pc : ProcessController) (expected : option Z)
    : outcome (option Z) * list event :=
  @resolve_wrapped_api _ E fuel wrapper pc expected.

Definition null_read : list RefUc.guest_step :=
  [RefUc.GBlock 0x401000 5; RefUc.GAccess UC_MEM_READ_UNMAPPED 0 4 0].
Definition falls_through : list RefUc.guest_step :=
  [RefUc.GBlock 0x401000 5].
Definition jumps_to_export : list RefUc.guest_step :=
  [RefUc.GBlock 0x401000 5; RefUc.GBlock 0x77001000 3].

(** A controller that reports a page size of 0. *)
Definition pc_zero : ProcessController :=
  {| architecture := X86_32; pointer_size := 4; page_size := 0;
     read_process_memory := live;
     enumerate_exported_functions := exports |}.

(** A wrapper that calls [Sleep(1000)] and then jumps to [CreateFileA]. *)
Definition sleeps_then_jumps : list RefUc.guest_step :=
  [RefUc.GBlock 0x401000 5; RefUc.GPush 1000; RefUc.GPush 0x401005;
   RefUc.GBlock 0x77003000 3; RefUc.GBlock 0x77001000 3].

(** An engine like [roomy], on a host that refuses every memory write. *)
Definition write_refusing : Engine RefUc.state :=
  {| e_open := RefUc.open 0x100000 0x10 [];
     e_mem_map := RefUc.mem_map;
     e_mem_write := λ _ _ _, inl UC_ERR_WRITE_UNMAPPED;
     e_mem_read := RefUc.mem_read;
     e_reg_read := λ u r, inr (RefUc.regs u r);
     e_reg_write := λ u r v, inr (RefUc.set_reg u r v);
     e_begin := λ u begin until,
       RefUc.set_reg u (RefUc.pc_of (RefUc.mode u)) (RInt begin);
     e_run := λ u, RefUc.play (RefUc.script u) u |}.

(** An engine whose stack pointer designates a mapped slot holding [top]
    and whose guest is about to do [guest]; the session around it, with
    the two callbacks installed. *)
Definition stack_state (pc : ProcessController) (m : uc_mode) (top : Z)
    (guest : list RefUc.guest_step) : RefUc.state :=
  {| RefUc.mode := m;
     RefUc.granule := page_size pc;
     RefUc.regs := λ r,
       if decide (r = RefUc.sp_of m) then RInt 0xff002000 else RInt 0;
     RefUc.regions := [(0xff000000, 0x3000)];
     RefUc.mem := RefUc.store ∅ 0xff002000 (le_encode (RefUc.width_of m) top);
     RefUc.budget := 0x100000;
     RefUc.script := guest |}.

Definition session (pc : ProcessController) (m : uc_mode) (top : Z)
    (guest : list RefUc.guest_step) : World RefUc.state :=
  {| w_uc := stack_state pc m top guest;
     w_hooks := [HookMemUnmapped pc; HookBlock pc STACK_MAGIC_RET_ADDR];
     w_stop := false;
     w_trace := [] |}.

(** The same session after the guest has moved its stack pointer to an
    address where nothing is mapped. *)
Definition lost_stack (pc : ProcessController) (m : uc_mode)
    : World RefUc.state :=
  {| w_uc := RefUc.set_reg (stack_state pc m 0 []) (RefUc.sp_of m) (RInt 0x10);
     w_hooks := [HookMemUnmapped pc; HookBlock pc STACK_MAGIC_RET_ADDR];
     w_stop := false;
     w_trace := [] |}.

End Sample.

(** * Properties *)

Section Properties.
Context {U : Type} `{!Engine U}.

Implicit Types (w : World U) (u : U) (pc : ProcessController).

(** Unfold the session primitives down to the engine calls. *)
Ltac session :=
  unfold reg_read_int, pack_pointer, pc_read_process_memory;
  unfold uc_mem_map, uc_mem_write, uc_mem_read, uc_reg_read, uc_reg_write,
    uc_emu_stop, uc_hook_add, LOG;
  unfold emit, engine_update, engine_query, request_stop, install, lift,
    raise, try_except, unless_stopped, hang, after, set_uc, mbind, M_bind,
    mret, M_ret;
  cbn.

(** Use a hypothesis about an engine call, then reduce. *)
Ltac by_engine H := rewrite H; cbn.

(** Close a goal between two worlds that differ in how the trace is
    bracketed. *)
Ltac same_world := rewrite <- ?app_assoc; reflexivity.

(** ** Sequencing *)

Lemma bind_returns {A B} (m : M U A) (k : A → M U B) w a w' :
  m w = (Returns a, w') → (m ≫= k) w = k a w'.
Proof. intros Hm. unfold mbind, M_bind. by rewrite Hm. Qed.

Lemma bind_raises {A B} (m : M U A) (k : A → M U B) w e w' :
  m w = (Raises e, w') → (m ≫= k) w = (Raises e, w').
Proof. intros Hm. unfold mbind, M_bind. by rewrite Hm. Qed.

(** ** Architecture selection *)

(** C7: an architecture other than x86-32 and x86-64 makes
    [resolve_wrapped_api] raise [NotImplementedError] with an empty trace:
    no emulator has been created and nothing has been mapped. *)
Theorem unsupported_architecture_fails_fast fuel wrapper_start_addr pc
    expected_ret_addr :
  architecture pc ≠ X86_32 →
  architecture pc ≠ X86_64 →
  ∃ a, architecture pc = ARCH_OTHER a ∧
       resolve_wrapped_api fuel wrapper_start_addr pc expected_ret_addr
       = (Raises (NotImplementedError a), []).
Proof.
  intros H32 H64. unfold resolve_wrapped_api.
  destruct (architecture pc) as [| |a]; [done|done|].
  exists a. done.
Qed.

(** ** The demand-paging fault handler *)

Lemma fault_page_mod pc address k :
  0 ≤ k → page_size pc = 2 ^ k →
  fault_page pc address = address - address `mod` page_size pc.
Proof.
  intros Hk Hp. unfold fault_page. rewrite Hp.
  replace (2 ^ k - 1) with (Z.ones k) by (rewrite Z.ones_equiv; lia).
  by rewrite Z.land_ones.
Qed.

Lemma unmapped_hook_null access size value pc w :
  _unicorn_hook_unmapped access 0 size value pc w
  = (Returns false, after w (w_uc w) (w_stop w) [ELog DEBUG (MsgUnmapped 0)]).
Proof. unfold _unicorn_hook_unmapped. session. done. Qed.

Lemma unmapped_hook_mapped access address size value pc w data u1 u2 :
  address ≠ 0 →
  read_process_memory pc (fault_page pc address) (page_size pc) = inr data →
  e_mem_map (w_uc w) (fault_page pc address) (Z.of_nat (length data))
    UC_PROT_ALL = inr u1 →
  e_mem_write u1 (fault_page pc address) data = inr u2 →
  _unicorn_hook_unmapped access address size value pc w
  = (Returns true,
     after w u2 (w_stop w)
       [ELog DEBUG (MsgUnmapped address);
        EReadProcessMemory (fault_page pc address) (page_size pc);
        EMemMap (fault_page pc address) (Z.of_nat (length data)) UC_PROT_ALL;
        EMemWrite (fault_page pc address) data;
        ELog DEBUG (MsgMapped (Z.of_nat (length data))
                      (fault_page pc address))]).
Proof.
  intros Hn Hr Hm Hw. unfold _unicorn_hook_unmapped, fault_page in *.
  destruct (decide (address = 0)) as [|_]; [done|].
  session. by_engine Hr. by_engine Hm. by_engine Hw. same_world.
Qed.

Lemma unmapped_hook_read_fails access address size value pc w e :
  address ≠ 0 →
  read_process_memory pc (fault_page pc address) (page_size pc) = inl e →
  _unicorn_hook_unmapped access address size value pc w
  = (Returns false,
     after w (w_uc w) (w_stop w)
       [ELog DEBUG (MsgUnmapped address);
        EReadProcessMemory (fault_page pc address) (page_size pc);
        ELog (swallowed_at e) (MsgError e)]).
Proof.
  intros Hn Hr. unfold _unicorn_hook_unmapped, fault_page in *.
  destruct (decide (address = 0)) as [|_]; [done|].
  session. by_engine Hr. destruct e; cbn; same_world.
Qed.

Lemma unmapped_hook_map_fails access address size value pc w data err :
  address ≠ 0 →
  read_process_memory pc (fault_page pc address) (page_size pc) = inr data →
  e_mem_map (w_uc w) (fault_page pc address) (Z.of_nat (length data))
    UC_PROT_ALL = inl err →
  _unicorn_hook_unmapped access address size value pc w
  = (Returns false,
     after w (w_uc w) (w_stop w)
       [ELog DEBUG (MsgUnmapped address);
        EReadProcessMemory (fault_page pc address) (page_size pc);
        EMemMap (fault_page pc address) (Z.of_nat (length data)) UC_PROT_ALL;
        ELog ERROR (MsgError (UcError err))]).
Proof.
  intros Hn Hr Hm. unfold _unicorn_hook_unmapped, fault_page in *.
  destruct (decide (address = 0)) as [|_]; [done|].
  session. by_engine Hr. by_engine Hm. same_world.
Qed.

Lemma unmapped_hook_write_fails access address size value pc w data u1 err :
  address ≠ 0 →
  read_process_memory pc (fault_page pc address) (page_size pc) = inr data →
  e_mem_map (w_uc w) (fault_page pc address) (Z.of_nat (length data))
    UC_PROT_ALL = inr u1 →
  e_mem_write u1 (fault_page pc address) data = inl err →
  _unicorn_hook_unmapped access address size value pc w
  = (Returns false,
     after w u1 (w_stop w)
       [ELog DEBUG (MsgUnmapped address);
        EReadProcessMemory (fault_page pc address) (page_size pc);
        EMemMap (fault_page pc address) (Z.of_nat (length data)) UC_PROT_ALL;
        EMemWrite (fault_page pc address) data;
        ELog ERROR (MsgError (UcError err))]).
Proof.
  intros Hn Hr Hm Hw. unfold _unicorn_hook_unmapped, fault_page in *.
  destruct (decide (address = 0)) as [|_]; [done|].
  session. by_engine Hr. by_engine Hm. by_engine Hw. same_world.
Qed.


(** ** The execution loop and the fault handler *)

Lemma run_unmapped_hooks_installed pc R access address size value w :
  run_unmapped_hooks [HookMemUnmapped pc; HookBlock pc R] access address
    size value w
  = _unicorn_hook_unmapped access address size value pc w.
Proof.
  cbn. unfold mbind, M_bind, mret, M_ret.
  destruct (_unicorn_hook_unmapped access address size value pc w)
    as [[[]| |] w']; done.
Qed.

Lemma unresolved_fault_ends_run fuel pc R access address size value w u' wf :
  w_hooks w = [HookMemUnmapped pc; HookBlock pc R] →
  e_run (w_uc w) = (EvUnmapped access address size value, u') →
  _unicorn_hook_unmapped access address size value pc (set_uc u' w)
  = (Returns false, wf) →
  emu_loop (S fuel) w = (Raises (UcError (unmapped_error access)), wf).
Proof.
  intros Hh Hrun Hhook. cbn [emu_loop]. rewrite Hrun. cbn [on_event].
  change (w_hooks (set_uc u' w)) with (w_hooks w). rewrite Hh.
  erewrite bind_returns; last first.
  { rewrite run_unmapped_hooks_installed. exact Hhook. }
  done.
Qed.

(** C6: at the null address the handler only logs the fault and returns
    [False]: it reads nothing from the live process and maps nothing; the
    execution loop then ends the run with the engine's unmapped-access
    error. *)
Theorem null_fault_is_refused access size value pc w :
  _unicorn_hook_unmapped access 0 size value pc w
  = (Returns false, after w (w_uc w) (w_stop w) [ELog DEBUG (MsgUnmapped 0)])
  ∧ ∀ fuel R u',
      w_hooks w = [HookMemUnmapped pc; HookBlock pc R] →
      e_run (w_uc w) = (EvUnmapped access 0 size value, u') →
      emu_loop (S fuel) w
      = (Raises (UcError (unmapped_error access)),
         after w u' (w_stop w) [ELog DEBUG (MsgUnmapped 0)]).
Proof.
  split; [apply unmapped_hook_null|].
  intros fuel R u' Hh Hrun.
  eapply unresolved_fault_ends_run; [done|done|].
  by rewrite unmapped_hook_null.
Qed.

(** ** The block hook *)

(** The test of lines 184-186. *)
Lemma return_match ret R :
  bool_decide (ret = R) || bool_decide (ret = R + 1)
  || bool_decide (ret = STACK_MAGIC_RET_ADDR) = true
  ↔ ret = R ∨ ret = R + 1 ∨ ret = STACK_MAGIC_RET_ADDR.
Proof.
  rewrite !orb_true_iff, !bool_decide_eq_true. tauto.
Qed.

Lemma return_mismatch ret R :
  ret ≠ R → ret ≠ R + 1 → ret ≠ STACK_MAGIC_RET_ADDR →
  bool_decide (ret = R) || bool_decide (ret = R + 1)
  || bool_decide (ret = STACK_MAGIC_RET_ADDR) = false.
Proof.
  intros. apply not_true_is_false. rewrite return_match. tauto.
Qed.

(** Split on the architecture behind a selected profile. *)
Ltac by_profile Hp :=
  let Harch := fresh "Harch" in
  unfold _unicorn_hook_block, fix_stack;
  match type of Hp with
  | select_profile (architecture ?pc) = inr ?p =>
      destruct (architecture pc) eqn:Harch; cbn in Hp; [| |discriminate Hp];
      injection Hp as <-; cbn in *
  end.

(** Run lines 174-183 of the hook from what the stack top is known to
    hold. *)
Ltac read_stack Hx Ht :=
  let Hsp := fresh "Hsp" in
  let Hrd := fresh "Hrd" in
  let Hfmt := fresh "Hfmt" in
  let Hun := fresh "Hun" in
  let fmt := fresh "fmt" in
  destruct Ht as (Hsp & Hrd & fmt & Hfmt & Hun);
  session; rewrite Hx; session;
  by_engine Hsp; by_engine Hrd; by_engine Hfmt; by_engine Hun.

Lemma block_hook_not_export pc p R address size w :
  select_profile (architecture pc) = inr p →
  enumerate_exported_functions pc !! address = None →
  _unicorn_hook_block address size (pc, R) w = (Returns tt, w).
Proof.
  intros Hp Hx. by_profile Hp; session; by rewrite Hx.
Qed.

Lemma block_hook_return_match pc p R address size info w sp data ret u' :
  select_profile (architecture pc) = inr p →
  enumerate_exported_functions pc !! address = Some info →
  stack_top pc (sp_register p) (w_uc w) sp data ret →
  ret = R ∨ ret = R + 1 ∨ ret = STACK_MAGIC_RET_ADDR →
  e_reg_write (w_uc w) (result_register p) (RInt address) = inr u' →
  _unicorn_hook_block address size (pc, R) w
  = (Returns tt,
     after w u' true
       [ERegRead (sp_register p); EMemRead sp (pointer_size pc);
        ELog DEBUG (MsgReached (name info));
        ERegWrite (result_register p) (RInt address); EEmuStop]).
Proof.
  intros Hp Hx Ht Hm Hw. apply return_match in Hm.
  by_profile Hp; read_stack Hx Ht; by_engine Hm; by_engine Hw; same_world.
Qed.

Lemma block_hook_no_return pc p R address size info w sp data ret u' :
  select_profile (architecture pc) = inr p →
  enumerate_exported_functions pc !! address = Some info →
  stack_top pc (sp_register p) (w_uc w) sp data ret →
  ret ≠ R → ret ≠ R + 1 → ret ≠ STACK_MAGIC_RET_ADDR →
  _is_no_return_api (name info) = true →
  e_reg_write (w_uc w) (result_register p) (RInt address) = inr u' →
  _unicorn_hook_block address size (pc, R) w
  = (Returns tt,
     after w u' true
       [ERegRead (sp_register p); EMemRead sp (pointer_size pc);
        ELog DEBUG (MsgReached (name info)); ELog DEBUG MsgNoReturn;
        ERegWrite (result_register p) (RInt address); EEmuStop]).
Proof.
  intros Hp Hx Ht H1 H2 H3 Hnr Hw.
  pose proof (return_mismatch ret R H1 H2 H3) as Hm.
  by_profile Hp; read_stack Hx Ht; by_engine Hm; by_engine Hnr; by_engine Hw;
    same_world.
Qed.

Lemma bogus_api_is_sleep api_name :
  _is_bogus_api api_name = true → api_name = "Sleep"%string.
Proof.
  unfold _is_bogus_api, BOGUS_APIS. rewrite bool_decide_eq_true.
  by intros ->%list_elem_of_singleton.
Qed.

Lemma simulate_sleep : _simulate_bogus_api "Sleep" = inr (0, 1).
Proof. reflexivity. Qed.

Lemma sleep_is_bogus :
  _is_no_return_api "Sleep" = false ∧ _is_bogus_api "Sleep" = true.
Proof. by vm_compute. Qed.

(** Outside the two stop conditions the hook never requests a stop,
    whatever the bypass does. *)
Lemma block_hook_keeps_running pc p R address size info w sp data ret :
  select_profile (architecture pc) = inr p →
  enumerate_exported_functions pc !! address = Some info →
  stack_top pc (sp_register p) (w_uc w) sp data ret →
  ret ≠ R → ret ≠ R + 1 → ret ≠ STACK_MAGIC_RET_ADDR →
  _is_no_return_api (name info) = false →
  w_stop (_unicorn_hook_block address size (pc, R) w).2 = w_stop w.
Proof.
  intros Hp Hx Ht H1 H2 H3 Hnr.
  pose proof (return_mismatch ret R H1 H2 H3) as Hm.
  destruct (_is_bogus_api (name info)) eqn:Hb.
  - pose proof (bogus_api_is_sleep _ Hb) as Hs.
    by_profile Hp; read_stack Hx Ht; by_engine Hm; by_engine Hnr;
      by_engine Hb; rewrite Hs, simulate_sleep; cbn;
      repeat (match goal with
              | |- context [e_reg_write ?u ?r ?v] =>
                  destruct (e_reg_write u r v); cbn
              end); done.
  - by_profile Hp; read_stack Hx Ht; by_engine Hm; by_engine Hnr;
      by_engine Hb; done.
Qed.

(** C2 (amended): at an exported block, with the return address [ret] on
    top of the stack, the hook requests a stop exactly when [ret] is [R],
    [R + 1] or the sentinel, or the export is a no-return API; when it
    stops, it has written the export's address to the result register.
    For any other [ret] at an export that is not a no-return API,
    emulation goes on. *)
Theorem block_hook_stops_exactly_when pc p R address size info w sp data ret
    u' :
  select_profile (architecture pc) = inr p →
  enumerate_exported_functions pc !! address = Some info →
  stack_top pc (sp_register p) (w_uc w) sp data ret →
  e_reg_write (w_uc w) (result_register p) (RInt address) = inr u' →
  w_stop w = false →
  (w_stop (_unicorn_hook_block address size (pc, R) w).2 = true ↔
     ret = R ∨ ret = R + 1 ∨ ret = STACK_MAGIC_RET_ADDR ∨
     _is_no_return_api (name info) = true) ∧
  (w_stop (_unicorn_hook_block address size (pc, R) w).2 = true →
     (_unicorn_hook_block address size (pc, R) w).1 = Returns tt ∧
     w_uc (_unicorn_hook_block address size (pc, R) w).2 = u').
Proof.
  intros Hp Hx Ht Hw Hrun.
  destruct (decide (ret = R ∨ ret = R + 1 ∨ ret = STACK_MAGIC_RET_ADDR))
    as [Hm|Hm].
  - rewrite (block_hook_return_match _ _ _ _ _ _ _ _ _ _ _ Hp Hx Ht Hm Hw).
    cbn. split; [|done]. split; [tauto|done].
  - assert (ret ≠ R ∧ ret ≠ R + 1 ∧ ret ≠ STACK_MAGIC_RET_ADDR)
      as (H1 & H2 & H3) by tauto.
    destruct (_is_no_return_api (name info)) eqn:Hnr.
    + rewrite (block_hook_no_return _ _ _ _ _ _ _ _ _ _ _
                 Hp Hx Ht H1 H2 H3 Hnr Hw).
      cbn. split; [|done]. split; [tauto|done].
    + rewrite (block_hook_keeps_running _ _ _ _ _ _ _ _ _ _
                 Hp Hx Ht H1 H2 H3 Hnr), Hrun.
      split; [|done]. split; [done|]. intros [?|[?|[?|?]]]; done.
Qed.


(** ** The bogus-call bypass *)

Lemma fix_stack_32 sp_reg sp ptr n w u :
  e_reg_write (w_uc w) sp_reg (RInt (sp + ptr * (1 + n))) = inr u →
  fix_stack X86_32 sp_reg sp ptr n w
  = (Returns tt,
     after w u (w_stop w) [ERegWrite sp_reg (RInt (sp + ptr * (1 + n)))]).
Proof. intros Hw. unfold fix_stack. session. by rewrite Hw. Qed.

Lemma fix_stack_64 sp_reg sp ptr n w u :
  e_reg_write (w_uc w) sp_reg (RInt (sp + ptr * (1 + Z.max 0 (n - 4))))
    = inr u →
  fix_stack X86_64 sp_reg sp ptr n w
  = (Returns tt,
     after w u (w_stop w)
       [ERegWrite sp_reg (RInt (sp + ptr * (1 + Z.max 0 (n - 4))))]).
Proof. intros Hw. unfold fix_stack. session. by rewrite Hw. Qed.

Lemma block_hook_bogus pc p R address size info w sp data ret k u1 u2 u3 :
  select_profile (architecture pc) = inr p →
  enumerate_exported_functions pc !! address = Some info →
  name info = "Sleep"%string →
  stack_top pc (sp_register p) (w_uc w) sp data ret →
  ret ≠ R → ret ≠ R + 1 → ret ≠ STACK_MAGIC_RET_ADDR →
  architecture pc = X86_32 ∧ k = 2 ∨ architecture pc = X86_64 ∧ k = 1 →
  e_reg_write (w_uc w) (result_register p) (RInt 0) = inr u1 →
  e_reg_write u1 (sp_register p) (RInt (sp + pointer_size pc * k)) = inr u2 →
  e_reg_write u2 (pc_register p) (RInt ret) = inr u3 →
  _unicorn_hook_block address size (pc, R) w
  = (Returns tt,
     after w u3 (w_stop w)
       [ERegRead (sp_register p); EMemRead sp (pointer_size pc);
        ELog DEBUG (MsgReached "Sleep"); ELog DEBUG MsgBogus;
        ERegWrite (result_register p) (RInt 0);
        ERegWrite (sp_register p) (RInt (sp + pointer_size pc * k));
        ERegWrite (pc_register p) (RInt ret)]).
Proof.
  intros Hp Hx Hs Ht H1 H2 H3 Hk Hw1 Hw2 Hw3.
  pose proof (return_mismatch ret R H1 H2 H3) as Hm.
  by_profile Hp; destruct Hk as [[? ->]|[? ->]]; try discriminate;
    read_stack Hx Ht; by_engine Hm; rewrite Hs;
    rewrite (proj1 sleep_is_bogus), (proj2 sleep_is_bogus), simulate_sleep;
    cbn; by_engine Hw1;
    change (1 + 1) with 2; change (1 + 0 `max` (1 - 4)) with 1;
    by_engine Hw2; by_engine Hw3; same_world.
Qed.

(** C4: the bypass pops [ptr_size * (1 + n)] bytes on x86-32 and
    [ptr_size * (1 + max(0, n - 4))] on x86-64; for [Sleep], the one bogus
    API (one argument), it writes 0 to the result register, advances the
    stack pointer by two pointer widths on x86-32 and by one on x86-64,
    and sets the program counter to the return address read from the top
    of the stack. *)
Theorem bogus_call_pops_the_call pc p R address size info w sp data ret :
  select_profile (architecture pc) = inr p →
  enumerate_exported_functions pc !! address = Some info →
  name info = "Sleep"%string →
  stack_top pc (sp_register p) (w_uc w) sp data ret →
  ret ≠ R → ret ≠ R + 1 → ret ≠ STACK_MAGIC_RET_ADDR →
  (∀ n sp_reg sp0 ptr w0 u,
     e_reg_write (w_uc w0) sp_reg (RInt (sp0 + ptr * (1 + n))) = inr u →
     fix_stack X86_32 sp_reg sp0 ptr n w0
     = (Returns tt,
        after w0 u (w_stop w0)
          [ERegWrite sp_reg (RInt (sp0 + ptr * (1 + n)))])) ∧
  (∀ n sp_reg sp0 ptr w0 u,
     e_reg_write (w_uc w0) sp_reg
       (RInt (sp0 + ptr * (1 + Z.max 0 (n - 4)))) = inr u →
     fix_stack X86_64 sp_reg sp0 ptr n w0
     = (Returns tt,
        after w0 u (w_stop w0)
          [ERegWrite sp_reg (RInt (sp0 + ptr * (1 + Z.max 0 (n - 4))))])) ∧
  _simulate_bogus_api "Sleep" = inr (0, 1) ∧
  (∀ k u1 u2 u3,
     architecture pc = X86_32 ∧ k = 2 ∨ architecture pc = X86_64 ∧ k = 1 →
     e_reg_write (w_uc w) (result_register p) (RInt 0) = inr u1 →
     e_reg_write u1 (sp_register p) (RInt (sp + pointer_size pc * k))
       = inr u2 →
     e_reg_write u2 (pc_register p) (RInt ret) = inr u3 →
     _unicorn_hook_block address size (pc, R) w
     = (Returns tt,
        after w u3 (w_stop w)
          [ERegRead (sp_register p); EMemRead sp (pointer_size pc);
           ELog DEBUG (MsgReached "Sleep"); ELog DEBUG MsgBogus;
           ERegWrite (result_register p) (RInt 0);
           ERegWrite (sp_register p) (RInt (sp + pointer_size pc * k));
           ERegWrite (pc_register p) (RInt ret)])).
Proof.
  intros Hp Hx Hs Ht H1 H2 H3. split; [|split; [|split]].
  - intros. by apply fix_stack_32.
  - intros. by apply fix_stack_64.
  - apply simulate_sleep.
  - intros k u1 u2 u3 Hk Hw1 Hw2 Hw3. by eapply block_hook_bogus.
Qed.

(** ** The entry point *)

Lemma resolve_catches_engine_error fuel wrapper_start_addr pc expected p u0
    err w' vpc vsp vbp :
  select_profile (architecture pc) = inr p →
  e_open (uc_arch_of p) (uc_mode_of p) = inr u0 →
  resolve_body fuel p wrapper_start_addr pc expected
    (fresh_world u0 [EUc (uc_arch_of p) (uc_mode_of p)])
  = (Raises (UcError err), w') →
  e_reg_read (w_uc w') (pc_register p) = inr (RInt vpc) →
  e_reg_read (w_uc w') (sp_register p) = inr (RInt vsp) →
  e_reg_read (w_uc w') (bp_register p) = inr (RInt vbp) →
  resolve_wrapped_api fuel wrapper_start_addr pc expected
  = (Returns None, w_trace w' ++ diagnostics p err vpc vsp vbp).
Proof.
  intros Hp Ho Hb Hpc Hsp Hbp. unfold resolve_wrapped_api.
  rewrite Hp, Ho. unfold try_except at 1. rewrite Hb. cbn.
  session. by_engine Hpc. by_engine Hsp. by_engine Hbp.
  unfold diagnostics. f_equal. same_world.
Qed.

(** C1 (amended): an engine error raised while the context is being built
    (a mapping, a memory write or a register write) is caught by the
    [except UcError] clause: the call logs the error and the three
    registers and returns [None].  Only a failure to create the emulator
    object itself reaches the caller as an exception. *)
Theorem construction_failure_is_unresolved fuel wrapper_start_addr pc
    expected p :
  select_profile (architecture pc) = inr p →
  (∀ err,
     e_open (uc_arch_of p) (uc_mode_of p) = inl err →
     resolve_wrapped_api fuel wrapper_start_addr pc expected
     = (Raises (UcError err), [EUc (uc_arch_of p) (uc_mode_of p)])) ∧
  (∀ u0 err w' vpc vsp vbp,
     e_open (uc_arch_of p) (uc_mode_of p) = inr u0 →
     build_context p pc expected
       (fresh_world u0 [EUc (uc_arch_of p) (uc_mode_of p)])
     = (Raises (UcError err), w') →
     e_reg_read (w_uc w') (pc_register p) = inr (RInt vpc) →
     e_reg_read (w_uc w') (sp_register p) = inr (RInt vsp) →
     e_reg_read (w_uc w') (bp_register p) = inr (RInt vbp) →
     resolve_wrapped_api fuel wrapper_start_addr pc expected
     = (Returns None, w_trace w' ++ diagnostics p err vpc vsp vbp)).
Proof.
  intros Hp. split.
  - intros err Ho. unfold resolve_wrapped_api. by rewrite Hp, Ho.
  - intros u0 err w' vpc vsp vbp Ho Hb Hpc Hsp Hbp.
    eapply resolve_catches_engine_error; try done.
    unfold resolve_body. by erewrite bind_raises.
Qed.

(** C8: a fault for which the handler returns [False] makes the run end
    with an engine error, and when [emu_start] ends with an engine error
    the call logs the error, the program counter, the stack pointer and
    the frame pointer, and returns [None]; the exception does not reach
    the caller. *)
Theorem emulation_fault_is_unresolved fuel wrapper_start_addr pc expected p
    u0 w1 err w2 vpc vsp vbp :
  select_profile (architecture pc) = inr p →
  e_open (uc_arch_of p) (uc_mode_of p) = inr u0 →
  build_context p pc expected
    (fresh_world u0 [EUc (uc_arch_of p) (uc_mode_of p)])
  = (Returns tt, w1) →
  (∀ n R access address size value w u' wf,
     w_hooks w = [HookMemUnmapped pc; HookBlock pc R] →
     e_run (w_uc w) = (EvUnmapped access address size value, u') →
     _unicorn_hook_unmapped access address size value pc (set_uc u' w)
     = (Returns false, wf) →
     emu_loop (S n) w = (Raises (UcError (unmapped_error access)), wf)) ∧
  (uc_emu_start fuel wrapper_start_addr (wrapper_start_addr + 1024) w1
   = (Raises (UcError err), w2) →
   e_reg_read (w_uc w2) (pc_register p) = inr (RInt vpc) →
   e_reg_read (w_uc w2) (sp_register p) = inr (RInt vsp) →
   e_reg_read (w_uc w2) (bp_register p) = inr (RInt vbp) →
   resolve_wrapped_api fuel wrapper_start_addr pc expected
   = (Returns None, w_trace w2 ++ diagnostics p err vpc vsp vbp)).
Proof.
  intros Hp Ho Hb. split.
  - intros. by eapply unresolved_fault_ends_run.
  - intros Hrun Hpc Hsp Hbp.
    eapply resolve_catches_engine_error; try done.
    unfold resolve_body. erewrite bind_returns by done.
    by erewrite bind_raises.
Qed.

Lemma resolve_returns_register fuel wrapper_start_addr pc expected p u0 w1 w2
    v :
  select_profile (architecture pc) = inr p →
  e_open (uc_arch_of p) (uc_mode_of p) = inr u0 →
  build_context p pc expected
    (fresh_world u0 [EUc (uc_arch_of p) (uc_mode_of p)])
  = (Returns tt, w1) →
  uc_emu_start fuel wrapper_start_addr (wrapper_start_addr + 1024) w1
  = (Returns tt, w2) →
  e_reg_read (w_uc w2) (result_register p) = inr (RInt v) →
  resolve_wrapped_api fuel wrapper_start_addr pc expected
  = (Returns (Some v), w_trace w2 ++ [ERegRead (result_register p)]).
Proof.
  intros Hp Ho Hb Hrun Hv.
  unfold resolve_wrapped_api. rewrite Hp, Ho.
  unfold try_except at 1, resolve_body.
  erewrite bind_returns by done. erewrite bind_returns by done.
  session. by_engine Hv. done.
Qed.

(** C9: when [emu_start] returns normally, whether or not a stop condition
    fired, the call returns the value then held by the result register (so
    0 when the register holds 0), never [None]. *)
Theorem clean_stop_returns_result_register fuel wrapper_start_addr pc
    expected p u0 w1 w2 v :
  select_profile (architecture pc) = inr p →
  e_open (uc_arch_of p) (uc_mode_of p) = inr u0 →
  build_context p pc expected
    (fresh_world u0 [EUc (uc_arch_of p) (uc_mode_of p)])
  = (Returns tt, w1) →
  uc_emu_start fuel wrapper_start_addr (wrapper_start_addr + 1024) w1
  = (Returns tt, w2) →
  e_reg_read (w_uc w2) (result_register p) = inr (RInt v) →
  resolve_wrapped_api fuel wrapper_start_addr pc expected
  = (Returns (Some v), w_trace w2 ++ [ERegRead (result_register p)]) ∧
  (resolve_wrapped_api fuel wrapper_start_addr pc expected).1 ≠ Returns None.
Proof.
  intros Hp Ho Hb Hrun Hv.
  erewrite resolve_returns_register by done. done.
Qed.

(** ** Reaching an export *)

Lemma keeps_bind {A B} (m : M U A) (k : A → M U B) :
  keeps_session m → (∀ a, keeps_session (k a)) → keeps_session (m ≫= k).
Proof.
  intros Hm Hk w r w'. unfold mbind, M_bind.
  destruct (m w) as [[a|e|] w1] eqn:E; destruct (Hm _ _ _ E) as [Hh Hs].
  - intros Hka. destruct (Hk _ _ _ _ Hka) as [Hh' Hs']. split; congruence.
  - by intros [= <- <-].
  - by intros [= <- <-].
Qed.

Lemma keeps_ret {A} (a : A) : keeps_session (mret a : M U A).
Proof. by intros w r w' [= <- <-]. Qed.

Lemma keeps_raise {A} e : keeps_session (raise e : M U A).
Proof. by intros w r w' [= <- <-]. Qed.

Lemma keeps_lift {A} (r : exn + A) : keeps_session (lift r : M U A).
Proof. destruct r; [apply keeps_raise|apply keeps_ret]. Qed.

Lemma keeps_emit ev : keeps_session (emit ev : M U unit).
Proof. by intros w r w' [= <- <-]. Qed.

Lemma keeps_engine_update f : keeps_session (engine_update f : M U unit).
Proof.
  intros w r w'. unfold engine_update.
  destruct (f (w_uc w)); by intros [= <- <-].
Qed.

Create HintDb session discriminated.
#[local] Hint Resolve keeps_ret keeps_raise keeps_lift keeps_emit
  keeps_engine_update : session.

Ltac keeps :=
  repeat first
    [ apply keeps_bind; [|intros ?]
    | solve [auto with session] ].

Lemma keeps_mem_map a sz perms : keeps_session (uc_mem_map a sz perms).
Proof. unfold uc_mem_map. keeps. Qed.

Lemma keeps_mem_write a data : keeps_session (uc_mem_write a data).
Proof. unfold uc_mem_write. keeps. Qed.

Lemma keeps_reg_write r v : keeps_session (uc_reg_write r v).
Proof. unfold uc_reg_write. keeps. Qed.

Lemma keeps_pack_pointer sz v :
  keeps_session (pack_pointer sz v : M U (list byte)).
Proof. unfold pack_pointer. keeps. Qed.

#[local] Hint Resolve keeps_mem_map keeps_mem_write keeps_reg_write
  keeps_pack_pointer : session.

Lemma keeps_map_context pc p :
  select_profile (architecture pc) = inr p →
  keeps_session (map_context p pc).
Proof.
  intros Hp. unfold map_context.
  by_profile Hp; unfold _setup_teb_x86, _setup_teb_x64; keeps.
Qed.

Lemma run_block_hooks_installed pc R address size w :
  run_block_hooks [HookMemUnmapped pc; HookBlock pc R] address size w
  = _unicorn_hook_block address size (pc, R) w.
Proof.
  cbn [run_block_hooks]. unfold mbind, M_bind, mret, M_ret.
  destruct (_unicorn_hook_block address size (pc, R) w) as [[[]| |] w'];
    done.
Qed.



Lemma build_context_installs pc p expected w0 w1 :
  map_context p pc w0 = (Returns tt, w1) →
  build_context p pc expected w0
  = (Returns tt,
     {| w_uc := w_uc w1;
        w_hooks := w_hooks w1 ++
          [HookMemUnmapped pc; HookBlock pc (stop_on_ret_addr expected)];
        w_stop := w_stop w1;
        w_trace := w_trace w1 ++
          [EHookAdd UC_HOOK_MEM_UNMAPPED; EHookAdd UC_HOOK_BLOCK] |}).
Proof.
  intros Hm. unfold build_context. erewrite bind_returns by done.
  unfold setup_hooks. session. by rewrite <- !app_assoc.
Qed.

Lemma emu_start_enters_loop fuel begin until w :
  uc_emu_start fuel begin until w
  = emu_loop fuel
      {| w_uc := e_begin (w_uc w) begin until; w_hooks := w_hooks w;
         w_stop := false;
         w_trace := w_trace w ++ [EEmuStart begin until] |}.
Proof. unfold uc_emu_start. session. done. Qed.


(** * Further properties of the code *)

(** ** Pointer encoding *)

Lemma Z_of_byte_of_Z v : Z_of_byte (byte_of_Z v) = v `mod` 256.
Proof.
  unfold Z_of_byte, byte_of_Z.
  assert (0 ≤ v `mod` 256 < 256) as Hr by (apply Z.mod_pos_bound; lia).
  destruct (Byte.of_N (Z.to_N (v `mod` 256))) as [b|] eqn:Hb.
  - cbn. apply Byte.to_of_N in Hb. rewrite Hb. lia.
  - apply Byte.of_N_None_iff in Hb. lia.
Qed.

Lemma length_le_encode n v : length (le_encode n v) = n.
Proof. revert v. induction n as [|n IH]; intros v; cbn; [done|]. by rewrite IH. Qed.

Lemma le_decode_encode n v :
  le_decode (le_encode n v) = v `mod` 2 ^ (8 * Z.of_nat n).
Proof.
  revert v. induction n as [|n IH]; intros v.
  - cbn. by rewrite Z.mod_1_r.
  - cbn [le_encode le_decode]. rewrite Z_of_byte_of_Z, IH.
    replace (8 * Z.of_nat (S n)) with (8 + 8 * Z.of_nat n) by lia.
    rewrite Z.pow_add_r by lia. change (2 ^ 8) with 256.
    rewrite Z.rem_mul_r by lia. done.
Qed.

Lemma pointer_size_to_fmt_size ps f :
  pointer_size_to_fmt ps = inr f → Z.of_nat (fmt_size f) = ps.
Proof.
  unfold pointer_size_to_fmt.
  repeat case_decide; intros [= <-]; cbn; lia.
Qed.

(** X8: for a pointer size that has a format, packing any value that fits
    the pointer and unpacking the bytes again gives the value back, and
    the bytes are exactly one pointer long: what construction writes to
    the stack top is what the block hook reads there. *)
Theorem pointer_roundtrip ps f v :
  pointer_size_to_fmt ps = inr f →
  0 ≤ v < 2 ^ (8 * ps) →
  ∃ data, struct_pack f v = inr data ∧
          Z.of_nat (length data) = ps ∧
          struct_unpack f data = inr v.
Proof.
  intros Hf Hv. pose proof (pointer_size_to_fmt_size _ _ Hf) as Hsz.
  exists (le_encode (fmt_size f) v). unfold struct_pack, struct_unpack.
  rewrite length_le_encode, Hsz.
  rewrite decide_True by done. rewrite decide_True by done.
  split; [done|]. split; [done|].
  rewrite le_decode_encode, Hsz. by rewrite Z.mod_small.
Qed.

(** ** The policy tables *)

(** X5: the bogus-API table has an entry for exactly the names that
    [_is_bogus_api] accepts: behind that test [_simulate_bogus_api] never
    raises [KeyError], and for any other name it does. *)
Theorem bogus_table_covers_bogus_apis api_name :
  (_is_bogus_api api_name = true ↔
     ∃ r, _simulate_bogus_api api_name = inr r) ∧
  (_is_bogus_api api_name = false →
     _simulate_bogus_api api_name = inl (KeyError api_name)).
Proof.
  unfold _is_bogus_api, BOGUS_APIS, _simulate_bogus_api, BOGUS_API_MAP.
  destruct (decide (api_name = "Sleep"%string)) as [->|Hne].
  - rewrite lookup_singleton_eq. split; [|by vm_compute].
    split; [by eexists|]. intros _. by vm_compute.
  - rewrite lookup_singleton_ne by done.
    rewrite bool_decide_eq_true, bool_decide_eq_false, list_elem_of_singleton.
    split; [|done]. split; [done|]. by intros [r [=]].
Qed.

(** X6: no API is both no-return and bogus, so the order of the two tests
    in the block hook never decides between them. *)
Theorem no_return_apis_are_not_bogus api_name :
  _is_no_return_api api_name = true → _is_bogus_api api_name = false.
Proof.
  unfold _is_no_return_api, NO_RETURN_APIS.
  rewrite bool_decide_eq_true, !elem_of_cons, elem_of_nil.
  intros [->|[->|[->|[]]]]; by vm_compute.
Qed.

(** ** More on the fault handler *)

(** X7: for a power-of-two page size the page the handler mirrors is
    page-aligned and contains the faulting address. *)
Theorem fault_page_contains_address pc address k :
  0 ≤ k → page_size pc = 2 ^ k →
  fault_page pc address ≤ address < fault_page pc address + page_size pc ∧
  fault_page pc address `mod` page_size pc = 0.
Proof.
  intros Hk Hp. rewrite (fault_page_mod pc address k Hk Hp).
  assert (0 < page_size pc) as Hpos.
  { rewrite Hp. by apply Z.pow_pos_nonneg. }
  pose proof (Z.mod_pos_bound address (page_size pc) Hpos) as Hb.
  split; [lia|].
  rewrite Zminus_mod, Zmod_mod, Z.sub_diag. by apply Zmod_0_l.
Qed.

(** X3: the fault handler always answers with a boolean: whatever the read
    of the live process raises and whatever the engine refuses, no
    exception leaves it, and it neither requests a stop nor touches the
    installed callbacks. *)
Theorem fault_handler_always_answers access address size value pc w :
  ∃ b w',
    _unicorn_hook_unmapped access address size value pc w = (Returns b, w') ∧
    w_hooks w' = w_hooks w ∧ w_stop w' = w_stop w.
Proof.
  destruct (decide (address = 0)) as [->|Hne].
  { rewrite unmapped_hook_null. by eexists _, _. }
  destruct (read_process_memory pc (fault_page pc address) (page_size pc))
    as [e|data] eqn:Hr.
  { erewrite unmapped_hook_read_fails by done. by eexists _, _. }
  destruct (e_mem_map (w_uc w) (fault_page pc address)
              (Z.of_nat (length data)) UC_PROT_ALL) as [err|u1] eqn:Hm.
  { erewrite unmapped_hook_map_fails by done. by eexists _, _. }
  destruct (e_mem_write u1 (fault_page pc address) data) as [err|u2] eqn:Hw.
  { erewrite unmapped_hook_write_fails by done. by eexists _, _. }
  erewrite unmapped_hook_mapped by done. by eexists _, _.
Qed.

(** X4: when the engine accepts the mapping but refuses the write, the
    handler returns [False] and leaves the new mapping in place: nothing
    is rolled back. *)
Theorem failed_write_leaves_page_mapped access address size value pc w data
    u1 err :
  address ≠ 0 →
  read_process_memory pc (fault_page pc address) (page_size pc) = inr data →
  e_mem_map (w_uc w) (fault_page pc address) (Z.of_nat (length data))
    UC_PROT_ALL = inr u1 →
  e_mem_write u1 (fault_page pc address) data = inl err →
  _unicorn_hook_unmapped access address size value pc w
  = (Returns false,
     after w u1 (w_stop w)
       [ELog DEBUG (MsgUnmapped address);
        EReadProcessMemory (fault_page pc address) (page_size pc);
        EMemMap (fault_page pc address) (Z.of_nat (length data)) UC_PROT_ALL;
        EMemWrite (fault_page pc address) data;
        ELog ERROR (MsgError (UcError err))]).
Proof. apply unmapped_hook_write_fails. Qed.

(** ** More on the block hook *)

(** X1: at a block that is not an exported function the hook does
    nothing: no register or memory access, no log line, no stop. *)
Theorem non_export_block_is_ignored pc p R address size w :
  select_profile (architecture pc) = inr p →
  enumerate_exported_functions pc !! address = None →
  _unicorn_hook_block address size (pc, R) w = (Returns tt, w).
Proof. apply block_hook_not_export. Qed.

Lemma block_hook_other pc p R address size info w sp data ret :
  select_profile (architecture pc) = inr p →
  enumerate_exported_functions pc !! address = Some info →
  stack_top pc (sp_register p) (w_uc w) sp data ret →
  ret ≠ R → ret ≠ R + 1 → ret ≠ STACK_MAGIC_RET_ADDR →
  _is_no_return_api (name info) = false →
  _is_bogus_api (name info) = false →
  _unicorn_hook_block address size (pc, R) w
  = (Returns tt,
     after w (w_uc w) (w_stop w)
       [ERegRead (sp_register p); EMemRead sp (pointer_size pc);
        ELog DEBUG (MsgReached (name info))]).
Proof.
  intros Hp Hx Ht H1 H2 H3 Hnr Hb.
  pose proof (return_mismatch ret R H1 H2 H3) as Hm.
  by_profile Hp; read_stack Hx Ht; by_engine Hm; by_engine Hnr; by_engine Hb;
    same_world.
Qed.

(** X2: at an export that is neither the destination (no return-address
    match), nor a no-return API, nor a bogus API, the hook only reads the
    stack top and logs the name: it writes no register, leaves the engine
    as it is and does not stop. *)
Theorem unexpected_export_is_passed pc p R address size info w sp data ret :
  select_profile (architecture pc) = inr p →
  enumerate_exported_functions pc !! address = Some info →
  stack_top pc (sp_register p) (w_uc w) sp data ret →
  ret ≠ R → ret ≠ R + 1 → ret ≠ STACK_MAGIC_RET_ADDR →
  _is_no_return_api (name info) = false →
  _is_bogus_api (name info) = false →
  _unicorn_hook_block address size (pc, R) w
  = (Returns tt,
     after w (w_uc w) (w_stop w)
       [ERegRead (sp_register p); EMemRead sp (pointer_size pc);
        ELog DEBUG (MsgReached (name info))]).
Proof. apply block_hook_other. Qed.

(** X14: when the stack top cannot be read at an exported block, the hook
    raises the engine's error right after the attempt: it logs nothing,
    writes no register and does not stop, whatever the export is (a
    no-return API included). *)
Theorem unreadable_stack_raises pc p R address size info w sp err :
  select_profile (architecture pc) = inr p →
  enumerate_exported_functions pc !! address = Some info →
  e_reg_read (w_uc w) (sp_register p) = inr (RInt sp) →
  e_mem_read (w_uc w) sp (pointer_size pc) = inl err →
  _unicorn_hook_block address size (pc, R) w
  = (Raises (UcError err),
     after w (w_uc w) (w_stop w)
       [ERegRead (sp_register p); EMemRead sp (pointer_size pc)]).
Proof.
  intros Hp Hx Hsp Hrd.
  by_profile Hp; session; rewrite Hx; session; by_engine Hsp; by_engine Hrd;
    same_world.
Qed.

(** ** More on context construction *)

Lemma eeo_bind {A B} (m : M U A) (k : A → M U B) :
  engine_errors_only m → (∀ a, engine_errors_only (k a)) →
  engine_errors_only (m ≫= k).
Proof.
  intros Hm Hk w r w'. unfold mbind, M_bind.
  destruct (m w) as [[a|e|] w1] eqn:E.
  - apply Hk.
  - intros [= <- <-]. destruct (Hm _ _ _ E) as [[a [=]]|[err [= ->]]].
    right. by eexists.
  - destruct (Hm _ _ _ E) as [[a [=]]|[err [=]]].
Qed.

Lemma eeo_ret {A} (a : A) : engine_errors_only (mret a : M U A).
Proof. intros w r w' [= <- <-]. left. by eexists. Qed.

Lemma eeo_emit ev : engine_errors_only (emit ev : M U unit).
Proof. intros w r w' [= <- <-]. left. by eexists. Qed.

Lemma eeo_install h : engine_errors_only (install h : M U unit).
Proof. intros w r w' [= <- <-]. left. by eexists. Qed.

Lemma eeo_engine_update f : engine_errors_only (engine_update f : M U unit).
Proof.
  intros w r w'. unfold engine_update.
  destruct (f (w_uc w)); intros [= <- <-]; [right|left]; by eexists.
Qed.

Lemma pack_pointer_ok ps f v w :
  pointer_size_to_fmt ps = inr f →
  0 ≤ v < 2 ^ (8 * ps) →
  pack_pointer ps v w = (Returns (le_encode (fmt_size f) v), w).
Proof.
  intros Hf Hv. pose proof (pointer_size_to_fmt_size _ _ Hf) as Hsz.
  unfold pack_pointer. session. rewrite Hf. cbn.
  unfold struct_pack. rewrite Hsz. by rewrite decide_True.
Qed.

Lemma eeo_pack_pointer ps f v :
  pointer_size_to_fmt ps = inr f →
  0 ≤ v < 2 ^ (8 * ps) →
  engine_errors_only (pack_pointer ps v : M U (list byte)).
Proof.
  intros Hf Hv w r w'. rewrite (pack_pointer_ok _ _ _ _ Hf Hv).
  intros [= <- <-]. left. by eexists.
Qed.

#[local] Hint Resolve eeo_ret eeo_emit eeo_install eeo_engine_update
  : session.

Ltac engine_only :=
  repeat first
    [ solve [eapply eeo_pack_pointer; [reflexivity|lia]]
    | solve [auto with session]
    | apply eeo_bind; [|intros ?] ].

Lemma eeo_setup_teb_x86 pc : engine_errors_only (_setup_teb_x86 pc).
Proof.
  unfold _setup_teb_x86, uc_mem_map, uc_mem_write, uc_reg_write.
  engine_only.
Qed.

Lemma eeo_setup_teb_x64 pc : engine_errors_only (_setup_teb_x64 pc).
Proof.
  unfold _setup_teb_x64, uc_mem_map, uc_mem_write, uc_reg_write.
  engine_only.
Qed.

(** X9: with a nonzero page size and a pointer size of 4 or 8, context
    construction always comes back, and the only exception it can raise
    is an engine error: the sentinel and the environment-block addresses
    all fit their pointer formats, so packing them never fails. *)
Theorem construction_raises_only_engine_errors pc p expected :
  select_profile (architecture pc) = inr p →
  page_size pc ≠ 0 →
  pointer_size pc = 4 ∨ pointer_size pc = 8 →
  engine_errors_only (build_context p pc expected).
Proof.
  intros Hp Hps Hptr.
  assert (∃ f, pointer_size_to_fmt (pointer_size pc) = inr f ∧
               0 ≤ STACK_MAGIC_RET_ADDR < 2 ^ (8 * pointer_size pc))
    as (f & Hf & Hfit).
  { destruct Hptr as [-> | ->]; eexists; split; try reflexivity; done. }
  unfold build_context, map_context, setup_hooks, py_mod.
  rewrite decide_False by done. unfold lift at 1.
  pose proof eeo_setup_teb_x86. pose proof eeo_setup_teb_x64.
  pose proof (eeo_pack_pointer _ _ _ Hf Hfit).
  by_profile Hp;
    unfold uc_mem_map, uc_mem_write, uc_reg_write, uc_hook_add;
    engine_only.
Qed.

(** X10: with a page size of 0 the call raises [ZeroDivisionError] from
    the alignment of the sentinel's page, after creating the emulator and
    before any mapping; the [except UcError] clause does not catch it. *)
Theorem zero_page_size_raises fuel wrapper_start_addr pc expected p u0 :
  select_profile (architecture pc) = inr p →
  e_open (uc_arch_of p) (uc_mode_of p) = inr u0 →
  page_size pc = 0 →
  resolve_wrapped_api fuel wrapper_start_addr pc expected
  = (Raises ZeroDivisionError, [EUc (uc_arch_of p) (uc_mode_of p)]).
Proof.
  intros Hp Ho Hz. unfold resolve_wrapped_api. rewrite Hp, Ho.
  unfold try_except, resolve_body, build_context, map_context, py_mod.
  rewrite Hz. session. done.
Qed.

(** ** What [None] means *)

Lemma resolve_body_returns_some fuel p wrapper_start_addr pc expected w x w' :
  resolve_body fuel p wrapper_start_addr pc expected w = (Returns x, w') →
  ∃ v, x = Some v.
Proof.
  unfold resolve_body, mbind, M_bind, mret, M_ret.
  destruct (build_context p pc expected w) as [[[]| |] w1]; [|done|done].
  destruct (uc_emu_start fuel wrapper_start_addr (wrapper_start_addr + 1024)
              w1) as [[[]| |] w2]; [|done|done].
  destruct (reg_read_int (result_register p) w2) as [[v| |] w3];
    [|done|done].
  intros [= <- <-]. by eexists.
Qed.

(** X13: the call returns [None] only from its [except UcError] clause:
    whenever the result is [None], the body of the [try] has raised an
    engine error. *)
Theorem unresolved_means_engine_error fuel wrapper_start_addr pc expected :
  (resolve_wrapped_api fuel wrapper_start_addr pc expected).1 = Returns None →
  ∃ p u0 err w',
    select_profile (architecture pc) = inr p ∧
    e_open (uc_arch_of p) (uc_mode_of p) = inr u0 ∧
    resolve_body fuel p wrapper_start_addr pc expected
      (fresh_world u0 [EUc (uc_arch_of p) (uc_mode_of p)])
    = (Raises (UcError err), w').
Proof.
  unfold resolve_wrapped_api.
  destruct (select_profile (architecture pc)) as [e|p] eqn:Hp; [done|].
  destruct (e_open (uc_arch_of p) (uc_mode_of p)) as [e|u0] eqn:Ho; [done|].
  unfold try_except.
  destruct (resolve_body fuel p wrapper_start_addr pc expected
              (fresh_world u0 [EUc (uc_arch_of p) (uc_mode_of p)]))
    as [[x|e|] w'] eqn:Hb.
  - destruct (resolve_body_returns_some _ _ _ _ _ _ _ _ Hb) as [v ->]. done.
  - destruct e; cbn; try done. intros _. by eexists p, u0, _, _.
  - done.
Qed.

(** ** Runs that go past exports *)

(** X12: a bypassed bogus call does not end the run: after writing the
    simulated result, the popped stack pointer and the return address,
    the loop goes on to the guest's next event. *)
Theorem bypassed_call_continues_run fuel pc p R w a sz u1 info sp data ret k
    u2 u3 u4 :
  select_profile (architecture pc) = inr p →
  w_hooks w = [HookMemUnmapped pc; HookBlock pc R] →
  w_stop w = false →
  e_run (w_uc w) = (EvBlock a sz, u1) →
  enumerate_exported_functions pc !! a = Some info →
  name info = "Sleep"%string →
  stack_top pc (sp_register p) u1 sp data ret →
  ret ≠ R → ret ≠ R + 1 → ret ≠ STACK_MAGIC_RET_ADDR →
  architecture pc = X86_32 ∧ k = 2 ∨ architecture pc = X86_64 ∧ k = 1 →
  e_reg_write u1 (result_register p) (RInt 0) = inr u2 →
  e_reg_write u2 (sp_register p) (RInt (sp + pointer_size pc * k))
    = inr u3 →
  e_reg_write u3 (pc_register p) (RInt ret) = inr u4 →
  emu_loop (S fuel) w
  = emu_loop fuel
      (after w u4 false
         [ERegRead (sp_register p); EMemRead sp (pointer_size pc);
          ELog DEBUG (MsgReached "Sleep"); ELog DEBUG MsgBogus;
          ERegWrite (result_register p) (RInt 0);
          ERegWrite (sp_register p) (RInt (sp + pointer_size pc * k));
          ERegWrite (pc_register p) (RInt ret)]).
Proof.
  intros Hp Hh Hs Hrun Hx Hn Ht H1 H2 H3 Hk Hw1 Hw2 Hw3.
  cbn [emu_loop]. rewrite Hrun. cbn [on_event].
  change (w_hooks (set_uc u1 w)) with (w_hooks w). rewrite Hh.
  erewrite bind_returns; last first.
  { rewrite run_block_hooks_installed.
    eapply (block_hook_bogus pc p R a sz info (set_uc u1 w)); done. }
  unfold unless_stopped, after. cbn. by rewrite Hs.
Qed.

Lemma loop_passes pc p R u u' :
  select_profile (architecture pc) = inr p →
  passes pc p R u u' →
  ∃ tr, ∀ fuel w,
    w_uc w = u →
    w_hooks w = [HookMemUnmapped pc; HookBlock pc R] →
    w_stop w = false →
    emu_loop (S fuel) w = emu_loop fuel (after w u' false tr).
Proof.
  intros Hp Hpass. destruct Hpass as
    [u a sz u1 Hrun Hx
    |u access a sz v u1 data u2 u3 Hrun Ha Hrd Hm Hw
    |u a sz u1 info sp data ret Hrun Hx Ht H1 H2 H3 Hnr Hb
    |u a sz u1 info sp data ret k u2 u3 u4 Hrun Hx Hn Ht H1 H2 H3 Hk
       Hw1 Hw2 Hw3];
    eexists; intros fuel w Hu Hh Hs; cbn [emu_loop]; rewrite Hu, Hrun;
    cbn [on_event]; change (w_hooks (set_uc u1 w)) with (w_hooks w);
    rewrite Hh.
  - erewrite bind_returns; last first.
    { rewrite run_block_hooks_installed. by eapply block_hook_not_export. }
    unfold unless_stopped. cbn. rewrite Hs.
    instantiate (1 := []). unfold after, set_uc. by rewrite app_nil_r, Hs.
  - erewrite bind_returns; last first.
    { rewrite run_unmapped_hooks_installed. by eapply unmapped_hook_mapped. }
    cbv beta iota. unfold after. cbn. by rewrite Hs.
  - erewrite bind_returns; last first.
    { rewrite run_block_hooks_installed.
      eapply (block_hook_other pc p R a sz info (set_uc u1 w)); done. }
    unfold unless_stopped, after. cbn. by rewrite Hs.
  - erewrite bind_returns; last first.
    { rewrite run_block_hooks_installed.
      eapply (block_hook_bogus pc p R a sz info (set_uc u1 w)); done. }
    unfold unless_stopped, after. cbn. by rewrite Hs.
Qed.

Lemma loop_passes_many pc p R u u' :
  select_profile (architecture pc) = inr p →
  rtc (passes pc p R) u u' →
  ∃ n tr, ∀ fuel w,
    w_uc w = u →
    w_hooks w = [HookMemUnmapped pc; HookBlock pc R] →
    w_stop w = false →
    emu_loop (n + fuel) w = emu_loop fuel (after w u' false tr).
Proof.
  intros Hp Hrtc. induction Hrtc as [u|u um u' Hstep Hrest IH].
  - exists 0%nat, []. intros fuel w Hu Hh Hs. cbn [Nat.add].
    f_equal. destruct w as [wu wh ws wt]. cbn in *. subst.
    unfold after. cbn. by rewrite app_nil_r.
  - destruct (loop_passes _ _ _ _ _ Hp Hstep) as (tr1 & H1).
    destruct IH as (n & tr2 & IH).
    exists (S n), (tr1 ++ tr2). intros fuel w Hu Hh Hs.
    cbn [Nat.add]. rewrite H1 by done. rewrite IH by done.
    f_equal. unfold after. cbn. by rewrite app_assoc.
Qed.

Lemma block_hook_stops_any pc p R address size info w sp data ret u' :
  select_profile (architecture pc) = inr p →
  enumerate_exported_functions pc !! address = Some info →
  stack_top pc (sp_register p) (w_uc w) sp data ret →
  ret = R ∨ ret = R + 1 ∨ ret = STACK_MAGIC_RET_ADDR ∨
    _is_no_return_api (name info) = true →
  e_reg_write (w_uc w) (result_register p) (RInt address) = inr u' →
  ∃ tr, _unicorn_hook_block address size (pc, R) w
        = (Returns tt, after w u' true tr).
Proof.
  intros Hp Hx Ht Hstop Hw.
  destruct (decide (ret = R ∨ ret = R + 1 ∨ ret = STACK_MAGIC_RET_ADDR))
    as [Hm|Hm].
  - eexists. by eapply block_hook_return_match.
  - eexists. eapply block_hook_no_return; try done; tauto.
Qed.

(** X11: the call resolves to the first export at which the hook stops.
    If the guest goes through any number of non-export blocks, resolved
    faults, exports that meet none of the hook's tests and bypassed bogus
    calls, and then enters an export with a matching return address on
    top of the stack (or a no-return export), then with enough fuel the
    call returns that export's address. *)
Theorem run_resolves_at_stopping_export wrapper_start_addr pc p expected u0
    w1 ub address size u' info sp data ret u'' :
  select_profile (architecture pc) = inr p →
  e_open (uc_arch_of p) (uc_mode_of p) = inr u0 →
  map_context p pc (fresh_world u0 [EUc (uc_arch_of p) (uc_mode_of p)])
  = (Returns tt, w1) →
  rtc (passes pc p (stop_on_ret_addr expected))
    (e_begin (w_uc w1) wrapper_start_addr (wrapper_start_addr + 1024)) ub →
  e_run ub = (EvBlock address size, u') →
  enumerate_exported_functions pc !! address = Some info →
  stack_top pc (sp_register p) u' sp data ret →
  ret = stop_on_ret_addr expected ∨ ret = stop_on_ret_addr expected + 1 ∨
    ret = STACK_MAGIC_RET_ADDR ∨ _is_no_return_api (name info) = true →
  e_reg_write u' (result_register p) (RInt address) = inr u'' →
  e_reg_read u'' (result_register p) = inr (RInt address) →
  ∃ n, ∀ fuel,
    (n ≤ fuel)%nat →
    (resolve_wrapped_api fuel wrapper_start_addr pc expected).1
    = Returns (Some address).
Proof.
  intros Hp Ho Hm Hrtc Hrun Hx Ht Hstop Hw Hres.
  destruct (keeps_map_context pc p Hp _ _ _ Hm) as [Hh Hs]. cbn in Hh, Hs.
  set (R := stop_on_ret_addr expected) in *.
  destruct (loop_passes_many _ _ _ _ _ Hp Hrtc) as (n & tr & Hloop).
  exists (S n). intros fuel Hfuel.
  replace fuel with (n + S (fuel - S n))%nat by lia.
  pose proof (build_context_installs pc p expected _ _ Hm) as Hb.
  rewrite Hh, Hs in Hb. cbn [app] in Hb. fold R in Hb.
  set (ws := {| w_uc := e_begin (w_uc w1) wrapper_start_addr
                          (wrapper_start_addr + 1024);
                w_hooks := [HookMemUnmapped pc; HookBlock pc R];
                w_stop := false;
                w_trace := (w_trace w1 ++
                   [EHookAdd UC_HOOK_MEM_UNMAPPED; EHookAdd UC_HOOK_BLOCK])
                   ++ [EEmuStart wrapper_start_addr
                         (wrapper_start_addr + 1024)] |}).
  destruct (block_hook_stops_any pc p R address size info
              (set_uc u' (after ws ub false tr)) sp data ret u''
              Hp Hx Ht Hstop Hw) as (trh & Hhook).
  assert (uc_emu_start (n + S (fuel - S n)) wrapper_start_addr
            (wrapper_start_addr + 1024)
            {| w_uc := w_uc w1;
               w_hooks := [HookMemUnmapped pc; HookBlock pc R];
               w_stop := false;
               w_trace := w_trace w1 ++
                 [EHookAdd UC_HOOK_MEM_UNMAPPED; EHookAdd UC_HOOK_BLOCK] |}
          = (Returns tt,
             after (set_uc u' (after ws ub false tr)) u'' true trh))
    as Hstart.
  { rewrite emu_start_enters_loop. cbn [w_uc w_hooks w_trace]. fold ws.
    rewrite Hloop by done. cbn [emu_loop].
    change (w_uc (after ws ub false tr)) with ub. rewrite Hrun.
    cbn [on_event].
    change (w_hooks (set_uc u' (after ws ub false tr)))
      with [HookMemUnmapped pc; HookBlock pc R].
    erewrite bind_returns; last first.
    { rewrite run_block_hooks_installed. exact Hhook. }
    done. }
  by rewrite (resolve_returns_register _ _ _ _ _ _ _ _ _
                Hp Ho Hb Hstart Hres).
Qed.

(** ** The sentinel's page *)

Lemma appends_bind {A B} (m : M U A) (k : A → M U B) :
  appends_to_trace m → (∀ a, appends_to_trace (k a)) →
  appends_to_trace (m ≫= k).
Proof.
  intros Hm Hk w r w'. unfold mbind, M_bind.
  destruct (m w) as [[a|e|] w1] eqn:E; destruct (Hm _ _ _ E) as [evs Hevs].
  - intros Hka. destruct (Hk _ _ _ _ Hka) as [evs' Hevs'].
    exists (evs ++ evs'). by rewrite Hevs', Hevs, app_assoc.
  - intros [= <- <-]. by exists evs.
  - intros [= <- <-]. by exists evs.
Qed.

Lemma appends_ret {A} (a : A) : appends_to_trace (mret a : M U A).
Proof. intros w r w' [= <- <-]. exists []. by rewrite app_nil_r. Qed.

Lemma appends_raise {A} e : appends_to_trace (raise e : M U A).
Proof. intros w r w' [= <- <-]. exists []. by rewrite app_nil_r. Qed.

Lemma appends_lift {A} (r : exn + A) : appends_to_trace (lift r : M U A).
Proof. destruct r; [apply appends_raise|apply appends_ret]. Qed.

Lemma appends_emit ev : appends_to_trace (emit ev : M U unit).
Proof. intros w r w' [= <- <-]. by exists [ev]. Qed.

Lemma appends_engine_update f :
  appends_to_trace (engine_update f : M U unit).
Proof.
  intros w r w'. unfold engine_update.
  destruct (f (w_uc w)); intros [= <- <-]; exists []; by rewrite app_nil_r.
Qed.

#[local] Hint Resolve appends_ret appends_raise appends_lift appends_emit
  appends_engine_update : session.

Ltac appends :=
  repeat first
    [ apply appends_bind; [|intros ?]
    | solve [auto with session] ].

Lemma mem_map_then {B} a s pr (k : unit → M U B) w :
  (uc_mem_map a s pr ≫= k) w
  = (engine_update (λ u, e_mem_map u a s pr) ≫= k)
      {| w_uc := w_uc w; w_hooks := w_hooks w; w_stop := w_stop w;
         w_trace := w_trace w ++ [EMemMap a s pr] |}.
Proof.
  unfold uc_mem_map, mbind, M_bind, emit.
  by destruct (engine_update _ _) as [[[]| |] w1].
Qed.

(** X15: for a positive page size the first outside call of context
    construction maps, with full permissions, one page that is
    page-aligned and contains the sentinel return address. *)
Theorem sentinel_page_is_mapped_first pc p w :
  select_profile (architecture pc) = inr p →
  0 < page_size pc →
  ∃ a rest,
    w_trace (map_context p pc w).2
    = w_trace w ++ EMemMap a (page_size pc) UC_PROT_ALL :: rest ∧
    a ≤ STACK_MAGIC_RET_ADDR < a + page_size pc ∧
    a `mod` page_size pc = 0.
Proof.
  intros Hp Hpos.
  pose proof (Z.mod_pos_bound STACK_MAGIC_RET_ADDR (page_size pc) Hpos) as Hb.
  exists (STACK_MAGIC_RET_ADDR - STACK_MAGIC_RET_ADDR `mod` page_size pc).
  assert (∃ rest,
            w_trace (map_context p pc w).2
            = w_trace w ++
              EMemMap (STACK_MAGIC_RET_ADDR
                       - STACK_MAGIC_RET_ADDR `mod` page_size pc)
                (page_size pc) UC_PROT_ALL :: rest) as [rest Hrest].
  { unfold map_context, py_mod. rewrite decide_False by lia.
    erewrite bind_returns by reflexivity. cbv zeta.
    rewrite mem_map_then.
    match goal with
    | |- context [(?m ≫= ?k) ?w0] =>
        assert (appends_to_trace (m ≫= k)) as Hk;
        [|destruct ((m ≫= k) w0) as [r w'] eqn:E;
          destruct (Hk _ _ _ E) as [evs Hevs]]
    end.
    { by_profile Hp; unfold _setup_teb_x86, _setup_teb_x64, pack_pointer,
        uc_mem_map, uc_mem_write, uc_reg_write; appends. }
    cbn in Hevs. exists evs. cbn. by rewrite Hevs, <- app_assoc. }
  exists rest. split; [done|]. split; [lia|].
  rewrite Zminus_mod, Zmod_mod, Z.sub_diag. by apply Zmod_0_l.
Qed.

End Properties.

(** * The properties on the sample inputs *)

Section Examples.
Import Sample.

#[local] Existing Instance roomy_idle.

(** C7 on an ARM64 controller. *)
Lemma unsupported_architecture_witness :
  ∃ a, architecture pc_arm = ARCH_OTHER a ∧
       resolve_wrapped_api 10 wrapper pc_arm None
       = (Raises (NotImplementedError a), []).
Proof.
  apply unsupported_architecture_fails_fast; discriminate.
Defined.

(** C6 on a guest that reads through a null pointer. *)
Lemma null_fault_witness :
  _unicorn_hook_unmapped UC_MEM_READ_UNMAPPED 0 4 0 pc32
    (session pc32 UC_MODE_32 0
       [RefUc.GAccess UC_MEM_READ_UNMAPPED 0 4 0])
  = (Returns false,
     after (session pc32 UC_MODE_32 0
              [RefUc.GAccess UC_MEM_READ_UNMAPPED 0 4 0])
       (stack_state pc32 UC_MODE_32 0 [RefUc.GAccess UC_MEM_READ_UNMAPPED 0 4 0])
       false [ELog DEBUG (MsgUnmapped 0)])
  ∧ emu_loop 1
      (session pc32 UC_MODE_32 0 [RefUc.GAccess UC_MEM_READ_UNMAPPED 0 4 0])
    = (Raises (UcError UC_ERR_READ_UNMAPPED),
       after (session pc32 UC_MODE_32 0
                [RefUc.GAccess UC_MEM_READ_UNMAPPED 0 4 0])
         (stack_state pc32 UC_MODE_32 0 []) false [ELog DEBUG (MsgUnmapped 0)]).
Proof.
  pose proof (null_fault_is_refused UC_MEM_READ_UNMAPPED 4 0 pc32
                (session pc32 UC_MODE_32 0
                   [RefUc.GAccess UC_MEM_READ_UNMAPPED 0 4 0])) as [H1 H2].
  split; [exact H1|].
  apply (H2 0%nat STACK_MAGIC_RET_ADDR); reflexivity.
Defined.



(** C2 refuted as stated: [ExitProcess] reached with a return address that
    is none of [R], [R + 1] and the sentinel, and the hook stops. *)
Lemma block_hook_counterexample :
  enumerate_exported_functions pc32 !! 0x77002000
  = Some {| name := "ExitProcess" |} ∧
  stack_top pc32 UC_X86_REG_ESP (stack_state pc32 UC_MODE_32 0x401005 [])
    0xff002000 (le_encode 4 0x401005) 0x401005 ∧
  0x401005 ≠ 0x5000 ∧ 0x401005 ≠ 0x5000 + 1 ∧
  0x401005 ≠ STACK_MAGIC_RET_ADDR ∧
  w_stop (session pc32 UC_MODE_32 0x401005 []) = false ∧
  w_stop (_unicorn_hook_block 0x77002000 3 (pc32, 0x5000)
            (session pc32 UC_MODE_32 0x401005 [])).2 = true.
Proof.
  split; [reflexivity|]. split.
  { split; [reflexivity|]. split; [reflexivity|].
    exists FmtI. split; reflexivity. }
  repeat split; try discriminate; reflexivity.
Qed.

(** C2 (amended) at the same input. *)
Lemma block_hook_witness :
  (w_stop (_unicorn_hook_block 0x77002000 3 (pc32, 0x5000)
             (session pc32 UC_MODE_32 0x401005 [])).2 = true ↔
     0x401005 = 0x5000 ∨ 0x401005 = 0x5000 + 1 ∨
     0x401005 = STACK_MAGIC_RET_ADDR ∨
     _is_no_return_api "ExitProcess" = true) ∧
  (w_stop (_unicorn_hook_block 0x77002000 3 (pc32, 0x5000)
             (session pc32 UC_MODE_32 0x401005 [])).2 = true →
     (_unicorn_hook_block 0x77002000 3 (pc32, 0x5000)
        (session pc32 UC_MODE_32 0x401005 [])).1 = Returns tt ∧
     w_uc (_unicorn_hook_block 0x77002000 3 (pc32, 0x5000)
             (session pc32 UC_MODE_32 0x401005 [])).2
     = RefUc.set_reg (stack_state pc32 UC_MODE_32 0x401005 []) UC_X86_REG_EAX
         (RInt 0x77002000)).
Proof.
  assert (stack_top pc32 UC_X86_REG_ESP (stack_state pc32 UC_MODE_32 0x401005 [])
            0xff002000 (le_encode 4 0x401005) 0x401005) as Ht.
  { split; [reflexivity|]. split; [reflexivity|].
    exists FmtI. split; reflexivity. }
  exact (block_hook_stops_exactly_when pc32 _ 0x5000 0x77002000 3
           {| name := "ExitProcess" |}
           (session pc32 UC_MODE_32 0x401005 [])
           0xff002000 (le_encode 4 0x401005) 0x401005 _
           eq_refl eq_refl Ht eq_refl eq_refl).
Defined.


(** C4 at [Sleep], on both profiles. *)
Lemma bogus_call_witness :
  _unicorn_hook_block 0x77003000 3 (pc32, 0x5000)
    (session pc32 UC_MODE_32 0x401005 [])
  = (Returns tt,
     after (session pc32 UC_MODE_32 0x401005 [])
       (RefUc.set_reg
          (RefUc.set_reg
             (RefUc.set_reg (stack_state pc32 UC_MODE_32 0x401005 [])
                UC_X86_REG_EAX (RInt 0))
             UC_X86_REG_ESP (RInt (0xff002000 + 4 * 2)))
          UC_X86_REG_EIP (RInt 0x401005))
       false
       [ERegRead UC_X86_REG_ESP; EMemRead 0xff002000 4;
        ELog DEBUG (MsgReached "Sleep"); ELog DEBUG MsgBogus;
        ERegWrite UC_X86_REG_EAX (RInt 0);
        ERegWrite UC_X86_REG_ESP (RInt (0xff002000 + 4 * 2));
        ERegWrite UC_X86_REG_EIP (RInt 0x401005)])
  ∧ _unicorn_hook_block 0x77003000 3 (pc64, 0x5000)
      (session pc64 UC_MODE_64 0x401005 [])
    = (Returns tt,
       after (session pc64 UC_MODE_64 0x401005 [])
         (RefUc.set_reg
            (RefUc.set_reg
               (RefUc.set_reg (stack_state pc64 UC_MODE_64 0x401005 [])
                  UC_X86_REG_RAX (RInt 0))
               UC_X86_REG_RSP (RInt (0xff002000 + 8 * 1)))
            UC_X86_REG_RIP (RInt 0x401005))
         false
         [ERegRead UC_X86_REG_RSP; EMemRead 0xff002000 8;
          ELog DEBUG (MsgReached "Sleep"); ELog DEBUG MsgBogus;
          ERegWrite UC_X86_REG_RAX (RInt 0);
          ERegWrite UC_X86_REG_RSP (RInt (0xff002000 + 8 * 1));
          ERegWrite UC_X86_REG_RIP (RInt 0x401005)]).
Proof.
  assert (stack_top pc32 UC_X86_REG_ESP (stack_state pc32 UC_MODE_32 0x401005 [])
            0xff002000 (le_encode 4 0x401005) 0x401005) as Ht32.
  { split; [reflexivity|]. split; [reflexivity|].
    exists FmtI. split; reflexivity. }
  assert (stack_top pc64 UC_X86_REG_RSP
            (stack_state pc64 UC_MODE_64 0x401005 [])
            0xff002000 (le_encode 8 0x401005) 0x401005) as Ht64.
  { split; [reflexivity|]. split; [reflexivity|].
    exists FmtQ. split; reflexivity. }
  assert (0x401005 ≠ 0x5000) as H1 by discriminate.
  assert (0x401005 ≠ 0x5000 + 1) as H2 by discriminate.
  assert (0x401005 ≠ STACK_MAGIC_RET_ADDR) as H3 by discriminate.
  destruct (bogus_call_pops_the_call pc32 _ 0x5000 0x77003000 3
              {| name := "Sleep" |} (session pc32 UC_MODE_32 0x401005 [])
              0xff002000 (le_encode 4 0x401005) 0x401005
              eq_refl eq_refl eq_refl Ht32 H1 H2 H3) as (_ & _ & _ & H32).
  destruct (bogus_call_pops_the_call pc64 _ 0x5000 0x77003000 3
              {| name := "Sleep" |} (session pc64 UC_MODE_64 0x401005 [])
              0xff002000 (le_encode 8 0x401005) 0x401005
              eq_refl eq_refl eq_refl Ht64 H1 H2 H3) as (_ & _ & _ & H64).
  split.
  - exact (H32 2 _ _ _ (or_introl (conj eq_refl eq_refl))
             eq_refl eq_refl eq_refl).
  - exact (H64 1 _ _ _ (or_intror (conj eq_refl eq_refl))
             eq_refl eq_refl eq_refl).
Defined.

(** C1 refuted as stated: the host cannot map the sentinel page, the
    engine reports [UC_ERR_NOMEM], and the call returns [None]. *)
Lemma construction_failure_counterexample :
  RefUc.mem_map (RefUc.fresh 0 0x1000 jumps_to_export UC_MODE_32)
    0xdeadb000 0x1000 UC_PROT_ALL = inl UC_ERR_NOMEM ∧
  run (exhausted jumps_to_export) 10 pc32 None
  = (Returns None,
     [EUc UC_ARCH_X86 UC_MODE_32; EMemMap 0xdeadb000 0x1000 7;
      ELog DEBUG (MsgError (UcError UC_ERR_NOMEM));
      ERegRead UC_X86_REG_EIP; ERegRead UC_X86_REG_ESP;
      ERegRead UC_X86_REG_EBP;
      ELog DEBUG (MsgPC 0); ELog DEBUG (MsgSP 0); ELog DEBUG (MsgBP 0)]).
Proof. split; vm_compute; reflexivity. Qed.

(** A computed pair is its outcome together with its final state. *)
Lemma with_outcome {A B} (x : A * B) (a : A) : x.1 = a → x = (a, x.2).
Proof. destruct x. cbn. by intros ->. Qed.

(** C1 (amended) on the same host. *)
Lemma construction_failure_witness :
  run (exhausted jumps_to_export) 10 pc32 None
  = (Returns None,
     [EUc UC_ARCH_X86 UC_MODE_32; EMemMap 0xdeadb000 0x1000 7;
      ELog DEBUG (MsgError (UcError UC_ERR_NOMEM));
      ERegRead UC_X86_REG_EIP; ERegRead UC_X86_REG_ESP;
      ERegRead UC_X86_REG_EBP;
      ELog DEBUG (MsgPC 0); ELog DEBUG (MsgSP 0); ELog DEBUG (MsgBP 0)]).
Proof.
  set (E := exhausted jumps_to_export).
  set (u0 := RefUc.fresh 0 0x1000 jumps_to_export UC_MODE_32).
  destruct (@construction_failure_is_unresolved _ E 10 wrapper pc32 None
              (@profile_x86_32 _ E) eq_refl) as [_ H].
  pose proof (with_outcome
                (@build_context _ E (@profile_x86_32 _ E) pc32 None
                   (fresh_world u0 [EUc UC_ARCH_X86 UC_MODE_32]))
                (Raises (UcError UC_ERR_NOMEM))
                ltac:(vm_compute; reflexivity)) as Hb.
  unfold run.
  rewrite (H u0 UC_ERR_NOMEM _ 0 0 0 eq_refl Hb
             ltac:(vm_compute; reflexivity) ltac:(vm_compute; reflexivity)
             ltac:(vm_compute; reflexivity)).
  vm_compute. reflexivity.
Defined.

(** C8 on a guest that reads through a null pointer. *)
Lemma emulation_fault_witness :
  run (roomy null_read) 10 pc32 None
  = (Returns None,
     [EUc UC_ARCH_X86 UC_MODE_32; EMemMap 0xdeadb000 0x1000 7;
      EMemMap 0xff000000 0x3000 3;
      EMemWrite 0xff002000 (le_encode 4 0xdeadbeef);
      ERegWrite UC_X86_REG_ESP (RInt 0xff002000);
      ERegWrite UC_X86_REG_EBP (RInt 0xff002000);
      EMemMap 0xff100000 0x1000 3; EMemMap 0xff200000 0x1000 3;
      EMemWrite 0xff100018 (le_encode 4 0xff100000);
      EMemWrite 0xff100030 (le_encode 4 0xff200000);
      ERegWrite UC_X86_REG_MSR (RMsr 0xC0000100 0xff100000);
      EHookAdd UC_HOOK_MEM_UNMAPPED; EHookAdd UC_HOOK_BLOCK;
      EEmuStart 0x401000 0x401400;
      ELog DEBUG (MsgUnmapped 0);
      ELog DEBUG (MsgError (UcError UC_ERR_READ_UNMAPPED));
      ERegRead UC_X86_REG_EIP; ERegRead UC_X86_REG_ESP;
      ERegRead UC_X86_REG_EBP;
      ELog DEBUG (MsgPC 0x401000); ELog DEBUG (MsgSP 0xff002000);
      ELog DEBUG (MsgBP 0xff002000)]).
Proof.
  set (E := roomy null_read).
  set (u0 := RefUc.fresh 0x100000 0x1000 null_read UC_MODE_32).
  set (w1 := (@build_context _ E (@profile_x86_32 _ E) pc32 None
                (fresh_world u0 [EUc UC_ARCH_X86 UC_MODE_32])).2).
  assert ((@build_context _ E (@profile_x86_32 _ E) pc32 None
             (fresh_world u0 [EUc UC_ARCH_X86 UC_MODE_32])).1
          = Returns tt) as Hb by (vm_compute; reflexivity).
  apply with_outcome in Hb.
  set (w2 := (@uc_emu_start _ E 10 wrapper (wrapper + 1024) w1).2).
  assert ((@uc_emu_start _ E 10 wrapper (wrapper + 1024) w1).1
          = Raises (UcError UC_ERR_READ_UNMAPPED)) as Hrun
    by (vm_compute; reflexivity).
  apply with_outcome in Hrun.
  assert (e_reg_read (w_uc w2) UC_X86_REG_EIP = inr (RInt 0x401000))
    as Hpc by (vm_compute; reflexivity).
  assert (e_reg_read (w_uc w2) UC_X86_REG_ESP = inr (RInt 0xff002000))
    as Hsp by (vm_compute; reflexivity).
  assert (e_reg_read (w_uc w2) UC_X86_REG_EBP = inr (RInt 0xff002000))
    as Hbp by (vm_compute; reflexivity).
  pose proof (proj2 (@emulation_fault_is_unresolved _ E 10 wrapper pc32 None
                       (@profile_x86_32 _ E) u0 w1 UC_ERR_READ_UNMAPPED w2
                       0x401000 0xff002000 0xff002000 eq_refl eq_refl Hb)
                Hrun Hpc Hsp Hbp) as H.
  unfold run. rewrite H. vm_compute. reflexivity.
Defined.

(** C9 on a guest that matches no export before the bound: the register
    was never written and the call returns 0. *)
Lemma clean_stop_witness :
  run (roomy falls_through) 10 pc32 None
  = (Returns (Some 0),
     [EUc UC_ARCH_X86 UC_MODE_32; EMemMap 0xdeadb000 0x1000 7;
      EMemMap 0xff000000 0x3000 3;
      EMemWrite 0xff002000 (le_encode 4 0xdeadbeef);
      ERegWrite UC_X86_REG_ESP (RInt 0xff002000);
      ERegWrite UC_X86_REG_EBP (RInt 0xff002000);
      EMemMap 0xff100000 0x1000 3; EMemMap 0xff200000 0x1000 3;
      EMemWrite 0xff100018 (le_encode 4 0xff100000);
      EMemWrite 0xff100030 (le_encode 4 0xff200000);
      ERegWrite UC_X86_REG_MSR (RMsr 0xC0000100 0xff100000);
      EHookAdd UC_HOOK_MEM_UNMAPPED; EHookAdd UC_HOOK_BLOCK;
      EEmuStart 0x401000 0x401400;
      ERegRead UC_X86_REG_EAX]) ∧
  (run (roomy falls_through) 10 pc32 None).1 ≠ Returns None.
Proof.
  set (E := roomy falls_through).
  set (u0 := RefUc.fresh 0x100000 0x1000 falls_through UC_MODE_32).
  set (w1 := (@build_context _ E (@profile_x86_32 _ E) pc32 None
                (fresh_world u0 [EUc UC_ARCH_X86 UC_MODE_32])).2).
  assert ((@build_context _ E (@profile_x86_32 _ E) pc32 None
             (fresh_world u0 [EUc UC_ARCH_X86 UC_MODE_32])).1
          = Returns tt) as Hb by (vm_compute; reflexivity).
  apply with_outcome in Hb.
  set (w2 := (@uc_emu_start _ E 10 wrapper (wrapper + 1024) w1).2).
  assert ((@uc_emu_start _ E 10 wrapper (wrapper + 1024) w1).1
          = Returns tt) as Hrun by (vm_compute; reflexivity).
  apply with_outcome in Hrun.
  assert (e_reg_read (w_uc w2) UC_X86_REG_EAX = inr (RInt 0))
    as Hv by (vm_compute; reflexivity).
  destruct (@clean_stop_returns_result_register _ E 10 wrapper pc32 None
              (@profile_x86_32 _ E) u0 w1 w2 0 eq_refl eq_refl Hb Hrun Hv)
    as [H1 H2].
  unfold run. split; [|exact H2].
  rewrite H1. vm_compute. reflexivity.
Defined.


(** X8 on the sentinel with 4-byte pointers. *)
Lemma pointer_roundtrip_witness :
  ∃ data, struct_pack FmtI STACK_MAGIC_RET_ADDR = inr data ∧
          Z.of_nat (length data) = 4 ∧
          struct_unpack FmtI data = inr STACK_MAGIC_RET_ADDR.
Proof.
  apply (pointer_roundtrip 4 FmtI STACK_MAGIC_RET_ADDR eq_refl).
  unfold STACK_MAGIC_RET_ADDR. lia.
Defined.

(** X5 at [Sleep] and at a name that is in no table. *)
Lemma bogus_table_witness :
  (∃ r, _simulate_bogus_api "Sleep" = inr r) ∧
  _simulate_bogus_api "Beep" = inl (KeyError "Beep").
Proof.
  split.
  - apply (proj1 (proj1 (bogus_table_covers_bogus_apis "Sleep"))).
    vm_compute. reflexivity.
  - apply (proj2 (bogus_table_covers_bogus_apis "Beep")).
    vm_compute. reflexivity.
Defined.

(** X6 at [ExitProcess]. *)
Lemma no_return_not_bogus_witness : _is_bogus_api "ExitProcess" = false.
Proof.
  apply no_return_apis_are_not_bogus. vm_compute. reflexivity.
Defined.

(** X7 with 4096-byte pages. *)
Lemma fault_page_witness :
  fault_page pc32 0x402004 ≤ 0x402004
    < fault_page pc32 0x402004 + page_size pc32 ∧
  fault_page pc32 0x402004 `mod` page_size pc32 = 0.
Proof.
  apply (fault_page_contains_address pc32 0x402004 12); [lia|reflexivity].
Defined.

(** X4 on a host that refuses the write: the 16-byte page stays mapped. *)
Lemma failed_write_witness :
  @_unicorn_hook_unmapped _ write_refusing UC_MEM_READ_UNMAPPED 0x402004 4 0
    pc_tiny (session pc_tiny UC_MODE_32 0 [])
  = (Returns false,
     after (session pc_tiny UC_MODE_32 0 [])
       {| RefUc.mode := UC_MODE_32; RefUc.granule := 0x10;
          RefUc.regs := RefUc.regs (stack_state pc_tiny UC_MODE_32 0 []);
          RefUc.regions := [(0x402000, 0x10); (0xff000000, 0x3000)];
          RefUc.mem := RefUc.mem (stack_state pc_tiny UC_MODE_32 0 []);
          RefUc.budget := 0x100000 - 0x10; RefUc.script := [] |}
       false
       [ELog DEBUG (MsgUnmapped 0x402004);
        EReadProcessMemory 0x402000 0x10;
        EMemMap 0x402000 0x10 UC_PROT_ALL;
        EMemWrite 0x402000 (replicate 16 Byte.x90);
        ELog ERROR (MsgError (UcError UC_ERR_WRITE_UNMAPPED))]).
Proof.
  assert (0x402004 ≠ 0) as Hne by discriminate.
  exact (@failed_write_leaves_page_mapped _ write_refusing
           UC_MEM_READ_UNMAPPED 0x402004 4 0 pc_tiny
           (session pc_tiny UC_MODE_32 0 []) (replicate 16 Byte.x90) _
           UC_ERR_WRITE_UNMAPPED Hne eq_refl eq_refl eq_refl).
Defined.

(** X1 at the wrapper's own first block. *)
Lemma non_export_block_witness :
  _unicorn_hook_block 0x401000 5 (pc32, 0x5000)
    (session pc32 UC_MODE_32 0x401005 [])
  = (Returns tt, session pc32 UC_MODE_32 0x401005 []).
Proof.
  exact (non_export_block_is_ignored pc32 _ 0x5000 0x401000 5
           (session pc32 UC_MODE_32 0x401005 []) eq_refl eq_refl).
Defined.

(** X2 at [CreateFileA], called from inside the wrapper. *)
Lemma unexpected_export_witness :
  _unicorn_hook_block 0x77001000 3 (pc32, 0x5000)
    (session pc32 UC_MODE_32 0x401005 [])
  = (Returns tt,
     after (session pc32 UC_MODE_32 0x401005 [])
       (stack_state pc32 UC_MODE_32 0x401005 []) false
       [ERegRead UC_X86_REG_ESP; EMemRead 0xff002000 4;
        ELog DEBUG (MsgReached "CreateFileA")]).
Proof.
  assert (stack_top pc32 UC_X86_REG_ESP (stack_state pc32 UC_MODE_32 0x401005 [])
            0xff002000 (le_encode 4 0x401005) 0x401005) as Ht.
  { split; [reflexivity|]. split; [reflexivity|].
    exists FmtI. split; reflexivity. }
  assert (0x401005 ≠ 0x5000) as H1 by discriminate.
  assert (0x401005 ≠ 0x5000 + 1) as H2 by discriminate.
  assert (0x401005 ≠ STACK_MAGIC_RET_ADDR) as H3 by discriminate.
  exact (unexpected_export_is_passed pc32 _ 0x5000 0x77001000 3
           {| name := "CreateFileA" |}
           (session pc32 UC_MODE_32 0x401005 [])
           0xff002000 (le_encode 4 0x401005) 0x401005
           eq_refl eq_refl Ht H1 H2 H3 eq_refl eq_refl).
Defined.

(** X14 at [ExitProcess] with the stack pointer in unmapped memory. *)
Lemma unreadable_stack_witness :
  _unicorn_hook_block 0x77002000 3 (pc32, 0x5000) (lost_stack pc32 UC_MODE_32)
  = (Raises (UcError UC_ERR_READ_UNMAPPED),
     after (lost_stack pc32 UC_MODE_32) (w_uc (lost_stack pc32 UC_MODE_32))
       false [ERegRead UC_X86_REG_ESP; EMemRead 0x10 4]).
Proof.
  exact (unreadable_stack_raises pc32 _ 0x5000 0x77002000 3
           {| name := "ExitProcess" |} (lost_stack pc32 UC_MODE_32) 0x10
           UC_ERR_READ_UNMAPPED eq_refl eq_refl eq_refl eq_refl).
Defined.

(** X9 on the 32-bit sample controller. *)
Lemma construction_errors_witness :
  engine_errors_only (build_context profile_x86_32 pc32 None).
Proof.
  apply construction_raises_only_engine_errors;
    [reflexivity|discriminate|left; reflexivity].
Defined.

(** X15 on the 32-bit sample controller: the page is 0xdeadb000. *)
Lemma sentinel_page_witness :
  ∃ a rest,
    w_trace (map_context profile_x86_32 pc32
               (session pc32 UC_MODE_32 0 [])).2
    = w_trace (session pc32 UC_MODE_32 0 [])
      ++ EMemMap a (page_size pc32) UC_PROT_ALL :: rest ∧
    a ≤ STACK_MAGIC_RET_ADDR < a + page_size pc32 ∧
    a `mod` page_size pc32 = 0.
Proof.
  apply sentinel_page_is_mapped_first; [reflexivity|reflexivity].
Defined.

(** X10 on a controller that reports a page size of 0. *)
Lemma zero_page_size_witness :
  run (roomy jumps_to_export) 10 pc_zero None
  = (Raises ZeroDivisionError, [EUc UC_ARCH_X86 UC_MODE_32]).
Proof.
  exact (@zero_page_size_raises _ (roomy jumps_to_export) 10 wrapper pc_zero
           None _ _ eq_refl eq_refl eq_refl).
Defined.

(** X13 on the host that cannot map the sentinel page. *)
Lemma unresolved_witness :
  ∃ p u0 err w',
    @select_profile _ (exhausted jumps_to_export) (architecture pc32)
    = inr p ∧
    @e_open _ (exhausted jumps_to_export) (uc_arch_of p) (uc_mode_of p)
    = inr u0 ∧
    @resolve_body _ (exhausted jumps_to_export) 10 p wrapper pc32 None
      (fresh_world u0 [EUc (uc_arch_of p) (uc_mode_of p)])
    = (Raises (UcError err), w').
Proof.
  apply unresolved_means_engine_error. vm_compute. reflexivity.
Defined.

(** X12 at [Sleep] on the 32-bit profile: the loop goes on with the stack
    pointer two slots up and the program counter at the return address. *)
Lemma bypassed_call_witness :
  emu_loop 2 (session pc32 UC_MODE_32 0x401005 [RefUc.GBlock 0x77003000 3])
  = emu_loop 1
      (after (session pc32 UC_MODE_32 0x401005 [RefUc.GBlock 0x77003000 3])
         (RefUc.set_reg
            (RefUc.set_reg
               (RefUc.set_reg (stack_state pc32 UC_MODE_32 0x401005 [])
                  UC_X86_REG_EAX (RInt 0))
               UC_X86_REG_ESP (RInt (0xff002000 + 4 * 2)))
            UC_X86_REG_EIP (RInt 0x401005))
         false
         [ERegRead UC_X86_REG_ESP; EMemRead 0xff002000 4;
          ELog DEBUG (MsgReached "Sleep"); ELog DEBUG MsgBogus;
          ERegWrite UC_X86_REG_EAX (RInt 0);
          ERegWrite UC_X86_REG_ESP (RInt (0xff002000 + 4 * 2));
          ERegWrite UC_X86_REG_EIP (RInt 0x401005)]).
Proof.
  assert (stack_top pc32 UC_X86_REG_ESP
            (stack_state pc32 UC_MODE_32 0x401005 [])
            0xff002000 (le_encode 4 0x401005) 0x401005) as Ht.
  { split; [reflexivity|]. split; [reflexivity|].
    exists FmtI. split; reflexivity. }
  assert (0x401005 ≠ STACK_MAGIC_RET_ADDR) as H1 by discriminate.
  assert (0x401005 ≠ STACK_MAGIC_RET_ADDR + 1) as H2 by discriminate.
  exact (bypassed_call_continues_run 1 pc32 _ STACK_MAGIC_RET_ADDR
           (session pc32 UC_MODE_32 0x401005 [RefUc.GBlock 0x77003000 3])
           0x77003000 3 (stack_state pc32 UC_MODE_32 0x401005 [])
           {| name := "Sleep" |} 0xff002000 (le_encode 4 0x401005) 0x401005
           2 _ _ _ eq_refl eq_refl eq_refl eq_refl eq_refl eq_refl Ht
           H1 H2 H1 (or_introl (conj eq_refl eq_refl))
           eq_refl eq_refl eq_refl).
Defined.

(** X11 on a wrapper that calls [Sleep(1000)] and then jumps to
    [CreateFileA]: the call returns [CreateFileA]. *)
Lemma run_resolves_witness :
  ∃ n, ∀ fuel,
    (n ≤ fuel)%nat →
    (run (roomy sleeps_then_jumps) fuel pc32 None).1
    = Returns (Some 0x77001000).
Proof.
  set (E := roomy sleeps_then_jumps).
  set (u0 := RefUc.fresh 0x100000 0x1000 sleeps_then_jumps UC_MODE_32).
  set (w1 := (@map_context _ E (@profile_x86_32 _ E) pc32
                (fresh_world u0 [EUc UC_ARCH_X86 UC_MODE_32])).2).
  assert ((@map_context _ E (@profile_x86_32 _ E) pc32
             (fresh_world u0 [EUc UC_ARCH_X86 UC_MODE_32])).1
          = Returns tt) as Hm by (vm_compute; reflexivity).
  apply with_outcome in Hm.
  set (ub := @e_begin _ E (w_uc w1) wrapper (wrapper + 1024)).
  set (u1 := (@e_run _ E ub).2).
  assert ((@e_run _ E ub).1 = EvBlock 0x401000 5) as Hr1
    by (vm_compute; reflexivity).
  apply with_outcome in Hr1.
  set (u2 := (@e_run _ E u1).2).
  assert ((@e_run _ E u1).1 = EvBlock 0x77003000 3) as Hr2
    by (vm_compute; reflexivity).
  apply with_outcome in Hr2.
  set (u3 := RefUc.set_reg u2 UC_X86_REG_EAX (RInt 0)).
  set (u4 := RefUc.set_reg u3 UC_X86_REG_ESP (RInt (0xff001ff8 + 4 * 2))).
  set (u5 := RefUc.set_reg u4 UC_X86_REG_EIP (RInt 0x401005)).
  set (u6 := (@e_run _ E u5).2).
  assert ((@e_run _ E u5).1 = EvBlock 0x77001000 3) as Hr3
    by (vm_compute; reflexivity).
  apply with_outcome in Hr3.
  assert (enumerate_exported_functions pc32 !! 0x401000 = None) as Hx1
    by (vm_compute; reflexivity).
  assert (enumerate_exported_functions pc32 !! 0x77003000
          = Some {| name := "Sleep" |}) as Hx2
    by (vm_compute; reflexivity).
  assert (enumerate_exported_functions pc32 !! 0x77001000
          = Some {| name := "CreateFileA" |}) as Hx3
    by (vm_compute; reflexivity).
  assert (stack_top pc32 UC_X86_REG_ESP u2 0xff001ff8 (le_encode 4 0x401005)
            0x401005) as Ht2.
  { split; [vm_compute; reflexivity|]. split; [vm_compute; reflexivity|].
    exists FmtI. split; vm_compute; reflexivity. }
  assert (stack_top pc32 UC_X86_REG_ESP u6 0xff002000
            (le_encode 4 STACK_MAGIC_RET_ADDR) STACK_MAGIC_RET_ADDR) as Ht6.
  { split; [vm_compute; reflexivity|]. split; [vm_compute; reflexivity|].
    exists FmtI. split; vm_compute; reflexivity. }
  assert (0x401005 ≠ STACK_MAGIC_RET_ADDR) as H1 by discriminate.
  assert (0x401005 ≠ STACK_MAGIC_RET_ADDR + 1) as H2 by discriminate.
  assert (e_reg_read (RefUc.set_reg u6 UC_X86_REG_EAX (RInt 0x77001000))
            UC_X86_REG_EAX = inr (RInt 0x77001000)) as Hres
    by (vm_compute; reflexivity).
  unfold run.
  exact (@run_resolves_at_stopping_export _ E wrapper pc32
           (@profile_x86_32 _ E) None u0 w1 u5 0x77001000 3 u6
           {| name := "CreateFileA" |} 0xff002000
           (le_encode 4 STACK_MAGIC_RET_ADDR) STACK_MAGIC_RET_ADDR
           (RefUc.set_reg u6 UC_X86_REG_EAX (RInt 0x77001000))
           eq_refl eq_refl Hm
           (rtc_l _ ub u1 u5
              (passes_block pc32 _ _ ub 0x401000 5 u1 Hr1 Hx1)
              (rtc_l _ u1 u5 u5
                 (passes_bogus pc32 (@profile_x86_32 _ E) _ u1 0x77003000 3
                    u2 {| name := "Sleep" |} 0xff001ff8
                    (le_encode 4 0x401005) 0x401005 2 u3 u4 u5
                    Hr2 Hx2 eq_refl Ht2 H1 H2 H1
                    (or_introl (conj eq_refl eq_refl))
                    eq_refl eq_refl eq_refl)
                 (rtc_refl _ u5)))
           Hr3 Hx3 Ht6 (or_introl eq_refl) eq_refl Hres).
Defined.

End Examples.
